(** * rpc_example/scripts/build_kotlin.py: the Kotlin binding build pipeline

    A shallow embedding of the build script and the properties of its
    specification.  The script is a sequence of steps that print to
    standard output, read and change the file system below the working
    directory, and launch external tools.  The embedding threads an explicit
    state (file system and a chronological trace of effects) through a state
    and exception monad; the host (operating system name, environment
    variables, behaviour of the launched tools) is a parameter. *)

From stdpp Require Import gmap strings list fin_maps.
From Stdlib Require Import ZArith Ascii.

Set Warnings "-register-all".

Local Open Scope Z_scope.

(** ** Strings as Python uses them in the script *)

Module PyStr.

(** [str.lower] on the ASCII range, where the names [platform.system()]
    returns lie. *)
Definition ascii_lower (a : ascii) : ascii :=
  let n := N_of_ascii a in
  if ((65 <=? n) && (n <=? 90))%N then ascii_of_N (n + 32) else a.

Fixpoint lower (s : string) : string :=
  match s with
  | EmptyString => EmptyString
  | String a s' => String (ascii_lower a) (lower s')
  end.

(** [sep.join(l)]. *)
Definition join (sep : string) (l : list string) : string :=
  String.concat sep l.

(** [s.split(c)] generalised to a set of separator characters: the pieces
    between separators, empty pieces included. *)
Fixpoint split_on (is_sep : ascii → bool) (cur : string) (s : string)
  : list string :=
  match s with
  | EmptyString => [cur]
  | String a s' =>
      if is_sep a then cur :: split_on is_sep EmptyString s'
      else split_on is_sep (cur +:+ String a EmptyString) s'
  end.

Fixpoint last_char (s : string) : option ascii :=
  match s with
  | EmptyString => None
  | String a EmptyString => Some a
  | String _ s' => last_char s'
  end.

Definition first_char (s : string) : option ascii :=
  match s with
  | EmptyString => None
  | String a _ => Some a
  end.


End PyStr.

(** ** The file system below the working directory *)

Module FS.

(** A node is a regular file with its content or a directory of named
    children. *)
Inductive node : Type :=
  | File (content : string)
  | Dir (children : gmap string node).

Definition path := list string.

Fixpoint lookup (p : path) (n : node) : option node :=
  match p with
  | [] => Some n
  | c :: p' =>
      match n with
      | File _ => None
      | Dir m =>
          match m !! c with
          | Some n' => lookup p' n'
          | None => None
          end
      end
  end.

Definition exists_ (p : path) (n : node) : bool :=
  match lookup p n with Some _ => true | None => false end.

Definition is_file (p : path) (n : node) : bool :=
  match lookup p n with Some (File _) => true | _ => false end.

Definition is_dir (p : path) (n : node) : bool :=
  match lookup p n with Some (Dir _) => true | _ => false end.

(** Unlink the entry at [p], with everything below it.  The root itself
    cannot be unlinked. *)
Fixpoint delete (p : path) (n : node) : node :=
  match p with
  | [] => n
  | c :: p' =>
      match n with
      | File _ => n
      | Dir m =>
          match p' with
          | [] => Dir (base.delete c m)
          | _ :: _ =>
              match m !! c with
              | Some n' => Dir (<[c := delete p' n']> m)
              | None => n
              end
          end
      end
  end.

(** Put node [x] at [p]; the parent of [p] has to be an existing
    directory. *)
Fixpoint put (p : path) (x : node) (n : node) : option node :=
  match p with
  | [] => None
  | c :: p' =>
      match n with
      | File _ => None
      | Dir m =>
          match p' with
          | [] => Some (Dir (<[c := x]> m))
          | _ :: _ =>
              match m !! c with
              | Some n' =>
                  match put p' x n' with
                  | Some r => Some (Dir (<[c := r]> m))
                  | None => None
                  end
              | None => None
              end
          end
      end
  end.

(** Create the directory [p] and the missing directories above it; [None]
    when a regular file is in the way. *)
Fixpoint mkdirs (p : path) (n : node) : option node :=
  match n with
  | File _ => None
  | Dir m =>
      match p with
      | [] => Some n
      | c :: p' =>
          match mkdirs p' (default (Dir ∅) (m !! c)) with
          | Some r => Some (Dir (<[c := r]> m))
          | None => None
          end
      end
  end.

End FS.

Export FS(node, File, Dir).

(** ** The host the script runs on *)

(** Exception classes the script and the library calls it makes can raise.
    All but [SystemExit] derive from Python's [Exception]. *)
Inductive exc_class : Type :=
| SystemExit
| CalledProcessError
| FileNotFoundError
| NotADirectoryError
| IsADirectoryError
| PermissionError
| FileExistsError
| SameFileError
| AttributeError.

#[global] Instance exc_class_eq_dec : EqDecision exc_class.
Proof. solve_decision. Defined.

(** [isinstance(e, Exception)]: [SystemExit] derives from [BaseException]
    only. *)
Definition is_Exception (c : exc_class) : bool :=
  match c with
  | SystemExit => false
  | _ => true
  end.

(** An exception object: its class and [str(e)].  For [SystemExit] raised
    by [sys.exit(msg)] the string is the message. *)
Record exn : Type := Exn { exn_class : exc_class; exn_str : string }.

(** What the script cannot decide by itself:
    - [platform_system]: the value of [platform.system()];
    - [environ]: the process environment read by [os.getenv];
    - [spawn]: the effect of [subprocess.run(command, shell=True)] on the
      file system, with the exit code of the process;
    - [strerror]: the text the runtime gives an [OSError] of a class for a
      path. *)
Record Host : Type := {
  platform_system : string;
  environ : gmap string string;
  spawn : list string → node → node * Z;
  strerror : exc_class → string → string
}.

(** ** State, effects and the monad of the script *)

(** Effects in the order they happen.  [Enter f] marks the entry into the
    body of [f], one of the seven functions [main] calls; the other events
    are the visible effects: a line printed to standard output, a process
    run to completion with its exit code, and the changes of the file system
    made through [shutil] and [os]. *)
Inductive event : Type :=
| Enter (fn : string)
| Print (line : string)
| Run (command : list string) (returncode : Z)
| Rmtree (p : string)
| Remove (p : string)
| Makedirs (p : string)
| Copy (src dst : string).

Record state : Type := State { fs : node; trace : list event }.

Inductive result (A : Type) : Type :=
| Ok (a : A)
| Raise (e : exn).
Arguments Ok {A} a.
Arguments Raise {A} e.

Definition M (A : Type) : Type := state → result A * state.

#[global] Instance M_ret : MRet M := λ A a st, (Ok a, st).

#[global] Instance M_bind : MBind M := λ A B f m st,
  match m st with
  | (Ok a, st') => f a st'
  | (Raise e, st') => (Raise e, st')
  end.

Definition raise {A} (e : exn) : M A := λ st, (Raise e, st).

Definition emit (e : event) : M unit :=
  λ st, (Ok (), State (fs st) (trace st ++ [e])).

Definition get_fs : M node := λ st, (Ok (fs st), st).

Definition set_fs (n : node) : M unit := λ st, (Ok (), State n (trace st)).

(** [for x in l: body(x)] *)
Fixpoint for_each {A} (l : list A) (body : A → M unit) : M unit :=
  match l with
  | [] => mret ()
  | x :: l' => body x;; for_each l' body
  end.

(** [print(line)] *)
Definition print (line : string) : M unit := emit (Print line).

(** [sys.exit(msg)] raises [SystemExit] carrying the message. *)
Definition sys_exit {A} (msg : string) : M A := raise (Exn SystemExit msg).

(** The events a computation added to the trace. *)
Definition new_events (before after : state) : list event :=
  drop (length (trace before)) (trace after).

Definition printed (tr : list event) : list string :=
  omap (λ e, match e with Print l => Some l | _ => None end) tr.

Definition launched (tr : list event) : list (list string) :=
  omap (λ e, match e with Run c _ => Some c | _ => None end) tr.

Definition entered (tr : list event) : list string :=
  omap (λ e, match e with Enter f => Some f | _ => None end) tr.


(** ** [os.path] *)

Module OsPath.

(** Path separators: [/], and also the backslash where [os.path] is
    [ntpath]. *)
Definition is_sep (nt : bool) (a : ascii) : bool :=
  bool_decide (a = "/"%char) || (nt && bool_decide (a = "\"%char)).

(** [os.path.join(a, b)] for paths without a drive. *)
Definition join (nt : bool) (a b : string) : string :=
  match PyStr.first_char b with
  | Some c =>
      if is_sep nt c then b
      else
        match PyStr.last_char a with
        | None => b
        | Some l =>
            if is_sep nt l then a +:+ b
            else a +:+ (if nt then "\" else "/") +:+ b
        end
  | None =>
      match PyStr.last_char a with
      | None => b
      | Some l =>
          if is_sep nt l then a else a +:+ (if nt then "\" else "/")
      end
  end.

Definition pieces (nt : bool) (p : string) : list string :=
  PyStr.split_on (is_sep nt) EmptyString p.

(** The names a relative path walks through from the working directory:
    empty pieces and [.] do not move.  The script has no path with [..]. *)
Definition components (nt : bool) (p : string) : FS.path :=
  filter (λ c, c ≠ EmptyString ∧ c ≠ ".") (pieces nt p).

(** [os.path.basename(p)] *)
Definition basename (nt : bool) (p : string) : string :=
  List.last (pieces nt p) EmptyString.

End OsPath.

(** ** The library calls and the script, on a host *)

(** The status object of [subprocess.run]. *)
Record CompletedProcess : Type := {
  args : list string;
  returncode : Z
}.

(** The argument that follows [flag] on a command line. *)
Fixpoint arg_after (flag : string) (cmd : list string) : option string :=
  match cmd with
  | [] => None
  | a :: rest =>
      match rest with
      | b :: _ => if bool_decide (a = flag) then Some b else arg_after flag rest
      | [] => None
      end
  end.

(** The double quote character, as a string. *)
Definition dquote : string := String (ascii_of_N 34) EmptyString.

Section Script.

Variable h : Host.

(** [os.path] is [ntpath] on Windows and [posixpath] elsewhere. *)
Definition nt : bool :=
  bool_decide (PyStr.lower (platform_system h) = "windows").

Definition resolve (p : string) : FS.path := OsPath.components nt p.

Definition os_path_join (a b : string) : string := OsPath.join nt a b.

Definition os_error {A} (c : exc_class) (p : string) : M A :=
  raise (Exn c (strerror h c p)).

(** The class of the error for using a directory where a file is needed:
    [EISDIR] on Linux, a permission error on macOS and Windows. *)
Definition directory_as_file : exc_class :=
  if bool_decide (PyStr.lower (platform_system h) = "linux")
  then IsADirectoryError else PermissionError.

(** [os.path.exists(p)] *)
Definition os_path_exists (p : string) : M bool :=
  n ← get_fs; mret (FS.exists_ (resolve p) n).

(** [shutil.rmtree(p)] *)
Definition shutil_rmtree (p : string) : M unit :=
  n ← get_fs;
  match FS.lookup (resolve p) n with
  | None => os_error FileNotFoundError p
  | Some (File _) => os_error NotADirectoryError p
  | Some (Dir _) => set_fs (FS.delete (resolve p) n);; emit (Rmtree p)
  end.

(** [os.remove(p)] *)
Definition os_remove (p : string) : M unit :=
  n ← get_fs;
  match FS.lookup (resolve p) n with
  | None => os_error FileNotFoundError p
  | Some (Dir _) => os_error directory_as_file p
  | Some (File _) => set_fs (FS.delete (resolve p) n);; emit (Remove p)
  end.

(** [os.makedirs(p)] *)
Definition os_makedirs (p : string) : M unit :=
  n ← get_fs;
  if FS.exists_ (resolve p) n then os_error FileExistsError p
  else
    match FS.mkdirs (resolve p) n with
    | Some n' => set_fs n';; emit (Makedirs p)
    | None => os_error (if nt then FileNotFoundError else NotADirectoryError) p
    end.

(** [shutil.copy(src, dst)]: into [dst] when it is a directory, else onto
    [dst]; the content of the source file is written to the target. *)
Definition shutil_copy (src dst : string) : M unit :=
  n ← get_fs;
  let dst :=
    if FS.is_dir (resolve dst) n
    then os_path_join dst (OsPath.basename nt src) else dst in
  if FS.exists_ (resolve src) n && bool_decide (resolve src = resolve dst)
  then os_error SameFileError src
  else
    match FS.lookup (resolve src) n with
    | None => os_error FileNotFoundError src
    | Some (Dir _) => os_error directory_as_file src
    | Some (File content) =>
        if FS.is_dir (resolve dst) n then os_error directory_as_file dst
        else
          match FS.put (resolve dst) (File content) n with
          | Some n' => set_fs n';; emit (Copy src dst)
          | None =>
              if FS.exists_ (removelast (resolve dst)) n
              then os_error NotADirectoryError dst
              else os_error FileNotFoundError dst
          end
    end.

(** [subprocess.run(command, shell=True)]: the process runs to completion;
    no exception is raised for a non-zero exit code ([check] is not set). *)
Definition subprocess_run (command : list string) : M CompletedProcess :=
  n ← get_fs;
  let r := spawn h command n in
  set_fs r.1;;
  emit (Run command r.2);;
  mret {| args := command; returncode := r.2 |}.

(** [result.returncode], where [result] may be [None]. *)
Definition get_returncode (result : option CompletedProcess) : M Z :=
  match result with
  | Some r => mret (returncode r)
  | None =>
      raise (Exn AttributeError
               "'NoneType' object has no attribute 'returncode'")
  end.

(** *** Constants (lines 10-14) *)

Definition KOTLINC : string := "kotlinc.bat".

Definition DEFAULT_CLASSPATH : string :=
  "./rpc_example/kotlin/vendor/jna.jar;./rpc_example/kotlin/vendor/kotlinx-coroutines.jar".

(** [os.getenv('CLASSPATH', default)] *)
Definition CLASSPATH : string :=
  default DEFAULT_CLASSPATH (environ h !! "CLASSPATH").

Definition LIB_NAME : string := "rpc_example".
Definition TARGET_DIR : string := "./target/release".
Definition KOTLIN_OUT_DIR : string := "./rpc_example/kotlin".

(** *** [run_command] (lines 16-22) *)

Definition run_command (command : list string) (print_only : bool)
  : M (option CompletedProcess) :=
  print ("[COMMAND] " +:+ PyStr.join " " command);;
  if print_only then mret None
  else r ← subprocess_run command; mret (Some r).

(** *** [get_lib_extension] (lines 24-34) *)

Definition get_lib_extension : M string :=
  emit (Enter "get_lib_extension");;
  let current_os := PyStr.lower (platform_system h) in
  if bool_decide (current_os = "darwin") then mret "dylib"
  else if bool_decide (current_os = "linux") then mret "so"
  else if bool_decide (current_os = "windows") then mret "dll"
  else sys_exit "Unknown OS. Supported OS: mac, linux, windows.".

(** *** [build_library] (lines 36-42) *)

Definition build_library_command : list string :=
  ["cargo"; "build"; "-p"; "rpc_example"; "--release"].

Definition build_library : M unit :=
  emit (Enter "build_library");;
  print "[INFO] Building library...";;
  result ← run_command build_library_command false;
  rc ← get_returncode result;
  if bool_decide (rc ≠ 0) then sys_exit "Failed to build library"
  else mret ().

(** *** [generate_binding] (lines 44-53) *)

Definition kotlin_lib_path : string := os_path_join KOTLIN_OUT_DIR LIB_NAME.

Definition generate_binding_command (lib_extension : string) : list string :=
  ["cargo"; "run"; "-p"; "rpc_example"; "--features=uniffi/cli"; "--bin";
   "uniffi-bindgen"; "generate";
   "--library"; TARGET_DIR +:+ "/" +:+ LIB_NAME +:+ "." +:+ lib_extension;
   "--language"; "kotlin"; "--out-dir"; KOTLIN_OUT_DIR].

(** Lines 46-49: the announcement and the removal of the previous output. *)
Definition generate_binding_predelete : M unit :=
  print "[INFO] Generating Kotlin binding...";;
  b ← os_path_exists kotlin_lib_path;
  if b : bool then shutil_rmtree kotlin_lib_path else mret ().

Definition generate_binding (lib_extension : string) : M unit :=
  emit (Enter "generate_binding");;
  generate_binding_predelete;;
  run_command (generate_binding_command lib_extension) false;;
  mret ().

(** *** [copy_cdylib] (lines 56-63) *)

Definition copy_cdylib (lib_extension : string) : M unit :=
  emit (Enter "copy_cdylib");;
  print "[INFO] Copying cdylib to output directory...";;
  let src := TARGET_DIR +:+ "/" +:+ LIB_NAME +:+ "." +:+ lib_extension in
  let dest := KOTLIN_OUT_DIR +:+ "/" +:+ LIB_NAME +:+ "." +:+ lib_extension in
  print ("[COMMAND] cp " +:+ src +:+ " " +:+ dest);;
  shutil_copy src dest.

(** *** [build_jar] (lines 65-73) *)

Definition jar_file : string := KOTLIN_OUT_DIR +:+ "/rpc_example.jar".

Definition build_jar_command : list string :=
  [KOTLINC; "-Werror"; "-d"; jar_file;
   KOTLIN_OUT_DIR +:+ "/uniffi/rpc_example/rpc_example.kt";
   "-classpath"; dquote +:+ CLASSPATH +:+ dquote].

Definition build_jar : M unit :=
  emit (Enter "build_jar");;
  print "[INFO] Building Kotlin JAR...";;
  b ← os_path_exists jar_file;
  (if b : bool then os_remove jar_file else mret ());;
  run_command build_jar_command true;;
  mret ().

(** *** [run_tests] (lines 75-86) *)

Definition test_names : list string := ["blocking"].

Definition run_tests_command (test_name : string) : list string :=
  [KOTLINC; "-Werror"; "-J-ea"; "-classpath";
   dquote +:+ CLASSPATH +:+ ";" +:+ KOTLIN_OUT_DIR +:+ "/rpc_example.jar;"
     +:+ KOTLIN_OUT_DIR +:+ dquote;
   "-script"; "./rpc_example/tests/" +:+ test_name +:+ "_test.kts"].

Definition run_tests : M unit :=
  emit (Enter "run_tests");;
  print "[INFO] Executing tests...";;
  for_each test_names (λ test_name,
    print ("[INFO] Running " +:+ test_name +:+ "_test.kts ...");;
    run_command (run_tests_command test_name) true;;
    mret ()).

(** *** [dependencies] (lines 88-110) *)

Definition vendor_folder : string := KOTLIN_OUT_DIR +:+ "/vendor".

Definition jna_url : string :=
  "https://repo1.maven.org/maven2/net/java/dev/jna/jna/5.14.0/jna-5.14.0.jar".
Definition jna_file : string := vendor_folder +:+ "/jna.jar".

Definition kotlinx_coroutines_url : string :=
  "https://repo1.maven.org/maven2/org/jetbrains/kotlinx/kotlinx-coroutines-core-jvm/1.6.4/kotlinx-coroutines-core-jvm-1.6.4.jar".
Definition kotlinx_coroutines_file : string :=
  vendor_folder +:+ "/kotlinx-coroutines.jar".

Definition dependencies : M unit :=
  emit (Enter "dependencies");;
  b ← os_path_exists vendor_folder;
  (if negb b then os_makedirs vendor_folder else mret ());;
  b ← os_path_exists jna_file;
  (if b : bool then print ("[INFO] JNA already exists at " +:+ jna_file)
   else run_command ["curl"; "-L"; jna_url; "-o"; jna_file] false;; mret ());;
  b ← os_path_exists kotlinx_coroutines_file;
  (if b : bool
   then print ("[INFO] kotlinx-coroutines already exists at "
               +:+ kotlinx_coroutines_file)
   else run_command ["curl"; "-L"; kotlinx_coroutines_url; "-o";
                     kotlinx_coroutines_file] false;; mret ()).

(** *** [main] (lines 113-132) *)

Definition main : M unit :=
  lib_extension ← get_lib_extension;
  build_library;;
  generate_binding lib_extension;;
  copy_cdylib lib_extension;;
  dependencies;;
  build_jar;;
  run_tests.

(** *** The body under [if __name__ == "__main__"] (lines 134-140) *)

Definition dunder_main : M unit := λ st,
  match main st with
  | (Ok _, st') => (Ok (), st')
  | (Raise e, st') =>
      if bool_decide (exn_class e = CalledProcessError)
      then sys_exit ("[ERROR] Command failed: " +:+ exn_str e) st'
      else if is_Exception (exn_class e)
      then sys_exit ("[ERROR] An error occurred: " +:+ exn_str e) st'
      else (Raise e, st')
  end.

End Script.

(** How the interpreter ends the process for what leaves the module:
    status 0 on a normal end; for [SystemExit] whose code is a string, the
    string goes to standard error and the status is 1; another exception
    ends the process with status 1 as well, after a traceback. *)
Record process_end : Type := {
  exit_status : Z;
  stderr : option string
}.

Definition interpreter_exit {A} (r : result A) : process_end :=
  match r with
  | Ok _ => {| exit_status := 0; stderr := None |}
  | Raise e =>
      match exn_class e with
      | SystemExit => {| exit_status := 1; stderr := Some (exn_str e) |}
      | _ =>
          {| exit_status := 1;
             stderr := Some ("Traceback (most recent call last): "
                             +:+ exn_str e) |}
      end
  end.

(** Running the script as a program from a file system. *)
Definition run_script (h : Host) (n : node) : process_end * state :=
  let r := dunder_main h (State n []) in
  (interpreter_exit r.1, r.2).

(** ** A reference host: tools that do what the script expects of them *)

Module Reference.

(** A tool writes a file, creating the directories above it. *)
Definition write_file (nt : bool) (p content : string) (n : node)
  : option node :=
  let c := OsPath.components nt p in
  match FS.mkdirs (removelast c) n with
  | Some n' => if FS.is_dir c n' then None else FS.put c (File content) n'
  | None => None
  end.

Definition finish (n : node) (failure : Z) (r : option node) : node * Z :=
  match r with
  | Some n' => (n', 0)
  | None => (n, failure)
  end.

(** [cargo build -p pkg --release] leaves the dynamic library
    [./target/release/pkg.suffix]. *)
Definition cargo_build (nt : bool) (suffix : string) (cmd : list string)
  (n : node) : node * Z :=
  finish n 101
    (pkg ← arg_after "-p" cmd;
     write_file nt ("./target/release/" +:+ pkg +:+ "." +:+ suffix)
       ("cdylib " +:+ pkg) n).

(** The binding generator reads the library and writes
    [uniffi/rpc_example/rpc_example.kt] below the output directory. *)
Definition uniffi_bindgen (nt : bool) (cmd : list string) (n : node)
  : node * Z :=
  finish n 101
    (lib ← arg_after "--library" cmd;
     out ← arg_after "--out-dir" cmd;
     if FS.is_file (OsPath.components nt lib) n
     then write_file nt (out +:+ "/uniffi/rpc_example/rpc_example.kt")
            "package uniffi.rpc_example" n
     else None).

(** [curl -L url -o dest] stores what it fetched; it creates no
    directory. *)
Definition curl (nt : bool) (cmd : list string) (n : node) : node * Z :=
  finish n 23
    (url ← arg_after "-L" cmd;
     dest ← arg_after "-o" cmd;
     if FS.is_dir (OsPath.components nt dest) n then None
     else FS.put (OsPath.components nt dest) (File ("fetched " +:+ url)) n).

(** The Kotlin compiler writes the archive named after [-d]; run on a
    script it changes nothing. *)
Definition kotlinc (nt : bool) (cmd : list string) (n : node) : node * Z :=
  match arg_after "-d" cmd with
  | Some jar => finish n 1 (write_file nt jar "jar of the bindings" n)
  | None => (n, 0)
  end.

Definition tools (nt : bool) (suffix : string) (cmd : list string) (n : node)
  : node * Z :=
  if bool_decide (take 2 cmd = ["cargo"; "build"]) then cargo_build nt suffix cmd n
  else if bool_decide (take 2 cmd = ["cargo"; "run"]) then uniffi_bindgen nt cmd n
  else if bool_decide (take 1 cmd = ["curl"]) then curl nt cmd n
  else if bool_decide (take 1 cmd = ["kotlinc.bat"]) then kotlinc nt cmd n
  else (n, 127).

(** The text of an [OSError], as on a POSIX system. *)
Definition posix_strerror (c : exc_class) (p : string) : string :=
  match c with
  | FileNotFoundError => "[Errno 2] No such file or directory: '" +:+ p +:+ "'"
  | NotADirectoryError => "[Errno 20] Not a directory: '" +:+ p +:+ "'"
  | IsADirectoryError => "[Errno 21] Is a directory: '" +:+ p +:+ "'"
  | PermissionError => "[Errno 1] Operation not permitted: '" +:+ p +:+ "'"
  | FileExistsError => "[Errno 17] File exists: '" +:+ p +:+ "'"
  | _ => p
  end.

Definition host (system suffix : string) (env : gmap string string) : Host := {|
  platform_system := system;
  environ := env;
  spawn := tools (bool_decide (PyStr.lower system = "windows")) suffix;
  strerror := posix_strerror
|}.

(** A checkout before the first build: the Kotlin directory with an empty
    vendor directory, and the test script. *)
Definition fresh_checkout : node :=
  Dir {[ "rpc_example" :=
    Dir {[ "kotlin" := Dir {[ "vendor" := Dir ∅ ]};
           "tests" := Dir {[ "blocking_test.kts" := File "import uniffi.rpc_example.*" ]} ]} ]}.

End Reference.

(** ** Vocabulary of the properties *)

Definition unknown_os_message : string :=
  "Unknown OS. Supported OS: mac, linux, windows.".

Definition build_failure_message : string := "Failed to build library".

Definition build_library_events (rc : Z) : list event :=
  [Enter "build_library";
   Print "[INFO] Building library...";
   Print "[COMMAND] cargo build -p rpc_example --release";
   Run build_library_command rc].

Definition out_dir_path : FS.path := ["rpc_example"; "kotlin"].

(** The source file the generator writes and [build_jar] compiles. *)
Definition bindings_source : string :=
  KOTLIN_OUT_DIR +:+ "/uniffi/rpc_example/rpc_example.kt".

(** The prefix the handler puts before the text of an exception. *)
Definition error_prefix (c : exc_class) : string :=
  if bool_decide (c = CalledProcessError) then "[ERROR] Command failed: "
  else "[ERROR] An error occurred: ".

Definition pipeline_steps : list string :=
  ["get_lib_extension"; "build_library"; "generate_binding"; "copy_cdylib";
   "dependencies"; "build_jar"; "run_tests"].


(** The processes a full run launches, in order. *)
Definition full_run_processes (lib_extension : string) : list (list string) :=
  [build_library_command;
   generate_binding_command lib_extension;
   ["curl"; "-L"; jna_url; "-o"; jna_file];
   ["curl"; "-L"; kotlinx_coroutines_url; "-o"; kotlinx_coroutines_file]].

Section Vocabulary.

Variable h : Host.

(** The steps of [main] that follow [build_library]. *)
Definition after_build_library (lib_extension : string) : M unit :=
  generate_binding h lib_extension;;
  copy_cdylib h lib_extension;;
  dependencies h;;
  build_jar h;;
  run_tests h.

Definition build_jar_echo : event :=
  Print ("[COMMAND] " +:+ PyStr.join " " (build_jar_command h)).

Definition run_tests_events : list event :=
  [Enter "run_tests";
   Print "[INFO] Executing tests...";
   Print "[INFO] Running blocking_test.kts ...";
   Print ("[COMMAND] " +:+ PyStr.join " " (run_tests_command h "blocking"))].

End Vocabulary.




(** C9 as the specification words it: whatever [main] raises is turned
    into a formatted "[ERROR] ..." message by the handler. *)
Definition every_exception_formatted (h : Host) (st : state) : Prop :=
  ∀ e st',
    main h st = (Raise e, st') →
    ∃ msg,
      dunder_main h st = (Raise (Exn SystemExit ("[ERROR] " +:+ msg)), st').


(** ** Scenarios *)

(** A working directory in which the library build fails: a regular file
    named [target] is in the way of the build directory. *)
Definition blocked_target : node := Dir {[ "target" := File "not a directory" ]}.

(** A checkout whose vendor directory already holds both archives. *)
Definition vendored_checkout : node :=
  Dir {[ "rpc_example" :=
    Dir {[ "kotlin" :=
      Dir {[ "vendor" :=
        Dir {[ "jna.jar" := File "jna";
               "kotlinx-coroutines.jar" := File "coroutines" ]} ]} ]} ]}.

(** A checkout with an archive left by an earlier build. *)
Definition stale_archive_checkout : node :=
  Dir {[ "rpc_example" :=
    Dir {[ "kotlin" := Dir {[ "rpc_example.jar" := File "old archive" ]} ]} ]}.

(** Reference hosts for the three platforms and for an unknown one, and
    the states the scenarios start in. *)
Definition darwin_host : Host := Reference.host "Darwin" "dylib" ∅.
Definition linux_host : Host := Reference.host "Linux" "so" ∅.
Definition windows_host : Host := Reference.host "Windows" "dll" ∅.
Definition freebsd_host : Host := Reference.host "FreeBSD" "so" ∅.

Definition fresh_state : state := State Reference.fresh_checkout [].
Definition blocked_state : state := State blocked_target [].
Definition vendored_state : state := State vendored_checkout [].
Definition stale_archive_state : state := State stale_archive_checkout [].

(** The state after the library build and a first run of
    [generate_binding] on Windows. *)
Definition built_state : state := (build_library windows_host fresh_state).2.
Definition generated_state : state :=
  (generate_binding windows_host "dll" built_state).2.

(** Tools that report success and do nothing. *)
Definition idle_host : Host := {|
  platform_system := "Linux";
  environ := ∅;
  spawn := λ _ n, (n, 0);
  strerror := Reference.posix_strerror
|}.

(** ** Vocabulary of the further properties *)

(** The library file [copy_cdylib] reads and the copy it writes. *)
Definition cdylib_src (lib_extension : string) : string :=
  TARGET_DIR +:+ "/" +:+ LIB_NAME +:+ "." +:+ lib_extension.
Definition cdylib_dest (lib_extension : string) : string :=
  KOTLIN_OUT_DIR +:+ "/" +:+ LIB_NAME +:+ "." +:+ lib_extension.

Definition lib_extensions : list string := ["dylib"; "so"; "dll"].

Definition copy_cdylib_prints (lib_extension : string) : list event :=
  [Enter "copy_cdylib";
   Print "[INFO] Copying cdylib to output directory...";
   Print ("[COMMAND] cp " +:+ cdylib_src lib_extension +:+ " "
          +:+ cdylib_dest lib_extension)].

(** A state in which the library has been built and the output directory
    exists. *)
Definition built_library_state : state :=
  State (Dir {[ "target" :=
                  Dir {[ "release" :=
                    Dir {[ "rpc_example.so" := File "cdylib rpc_example" ]} ]};
                "rpc_example" := Dir {[ "kotlin" := Dir ∅ ]} ]}) [].

Definition generate_binding_echo (lib_extension : string) : event :=
  Print ("[COMMAND] "
         +:+ PyStr.join " " (generate_binding_command lib_extension)).

(** A checkout in which a regular file has the name of the directory
    [generate_binding] removes. *)
Definition file_as_lib_path_state : state :=
  State (Dir {[ "rpc_example" :=
                  Dir {[ "kotlin" :=
                    Dir {[ "rpc_example" := File "not a directory" ]} ]} ]})
    [].

(** A checkout with an earlier output below [rpc_example/kotlin/rpc_example]. *)
Definition old_output_state : state :=
  State (Dir {[ "rpc_example" :=
                  Dir {[ "kotlin" :=
                    Dir {[ "rpc_example" :=
                      Dir {[ "old.kt" := File "old binding" ]} ]} ]} ]})
    [].

Definition curl_jna : list string := ["curl"; "-L"; jna_url; "-o"; jna_file].
Definition curl_kotlinx_coroutines : list string :=
  ["curl"; "-L"; kotlinx_coroutines_url; "-o"; kotlinx_coroutines_file].

(** A checkout without the Kotlin directory. *)
Definition bare_state : state := State (Dir ∅) [].


(** A checkout in which [rpc_example.jar] is a directory. *)
Definition directory_as_archive_state : state :=
  State (Dir {[ "rpc_example" :=
                  Dir {[ "kotlin" :=
                    Dir {[ "rpc_example.jar" := Dir ∅ ]} ]} ]}) [].

(** A computation extends the trace, whatever the state it starts in, by
    events that satisfy [P]. *)
Definition adds {A} (P : list event → Prop) (m : M A) : Prop :=
  ∀ st, ∃ evs, trace (m st).2 = trace st ++ evs ∧ P evs.

(** The echo line [run_command] prints for a command. *)
Definition echo_line (command : list string) : string :=
  "[COMMAND] " +:+ PyStr.join " " command.

(** Every launch in [evs] has the echo line of its command directly
    before it. *)
Definition echoed (evs : list event) : Prop :=
  ∀ i c rc,
    evs !! i = Some (Run c rc) →
    ∃ j, i = S j ∧ evs !! j = Some (Print (echo_line c)).

(** No step is entered in [evs]. *)
Definition unmarked (evs : list event) : Prop := entered evs = [].

(** [evs] starts with the entry into step [f] and goes on with events
    that satisfy [P]. *)
Definition marked (f : string) (P : list event → Prop) (evs : list event)
  : Prop :=
  ∃ evs', evs = Enter f :: evs' ∧ P evs'.

(** An event that is neither a launch nor the entry into a step. *)
Definition plain (e : event) : Prop :=
  match e with
  | Run _ _ | Enter _ => False
  | _ => True
  end.

(** The steps a computation enters are the first of [l], in order, and
    all of [l] when it returns. *)
Definition in_order {A} (l : list string) (m : M A) : Prop :=
  ∀ st, ∃ evs,
    trace (m st).2 = trace st ++ evs
    ∧ entered evs `prefix_of` l
    ∧ (∀ a, (m st).1 = Ok a → entered evs = l).

(** The classes of the [OSError]s the library calls of the script raise. *)
Definition os_error_classes : list exc_class :=
  [FileNotFoundError; NotADirectoryError; IsADirectoryError; PermissionError;
   FileExistsError; SameFileError].

(** What a step can raise: [SystemExit] with one of the two messages of the
    script, or an [OSError] with the text of the runtime for a path. *)
Definition expected_failure (h : Host) (e : exn) : Prop :=
  e = Exn SystemExit unknown_os_message
  ∨ e = Exn SystemExit build_failure_message
  ∨ ∃ c p, c ∈ os_error_classes ∧ e = Exn c (strerror h c p).

(** A computation raises nothing but exceptions that satisfy [P]. *)
Definition raises_only {A} (P : exn → Prop) (m : M A) : Prop :=
  ∀ st e st', m st = (Raise e, st') → P e.

(** The host [h] with the exit codes of its processes replaced by those
    of [rc]; what the processes do to the file system is kept. *)
Definition with_exit_codes (h : Host) (rc : list string → node → Z) : Host := {|
  platform_system := platform_system h;
  environ := environ h;
  spawn := λ c n, ((spawn h c n).1, rc c n);
  strerror := strerror h
|}.

(** Two states with the same file system and the same printed lines. *)
Definition same_world (st1 st2 : state) : Prop :=
  fs st1 = fs st2 ∧ printed (trace st1) = printed (trace st2).

(** Two computations that, from states with the same world, have the same
    result and leave the same world. *)
Definition agree {A} (m1 m2 : M A) : Prop :=
  ∀ st1 st2, same_world st1 st2 →
    (m1 st1).1 = (m2 st2).1 ∧ same_world (m1 st1).2 (m2 st2).2.

(** The same, but for the value returned: both return or both raise the
    same exception. *)
Definition agree_but_value {A} (m1 m2 : M A) : Prop :=
  ∀ st1 st2, same_world st1 st2 →
    same_world (m1 st1).2 (m2 st2).2
    ∧ match (m1 st1).1, (m2 st2).1 with
      | Ok _, Ok _ => True
      | Raise e1, Raise e2 => e1 = e2
      | _, _ => False
      end.

(** The exit codes of the reference host on Windows, with every one but
    that of the library build turned into a failure. *)
Definition failing_exit_codes (c : list string) (n : node) : Z :=
  if bool_decide (c = build_library_command)
  then (Reference.tools true "dll" c n).2 else 1.

(** [" " in s] *)
Fixpoint has_space (s : string) : bool :=
  match s with
  | EmptyString => false
  | String a s' => bool_decide (a = " "%char) || has_space s'
  end.

Definition is_space (a : ascii) : bool := bool_decide (a = " "%char).

(** ** Properties *)

(** *** The monad and the trace *)

Ltac run_monad :=
  repeat (unfold mbind, M_bind, mret, M_ret, emit, print, sys_exit, raise,
          get_fs, set_fs; simpl).

(** Membership in, and absence from, an explicit list. *)
Ltac in_list :=
  repeat first [apply list_elem_of_here | apply list_elem_of_further].

Ltac not_in_list H :=
  repeat (apply elem_of_cons in H as [H|H]; [try discriminate|]);
  try (by apply elem_of_nil in H).

Lemma app_trace (tr : list event) (e : event) (evs : list event) :
  (tr ++ [e]) ++ evs = tr ++ e :: evs.
Proof. by rewrite <- app_assoc. Qed.

Lemma new_events_app (st : state) (n : node) (evs : list event) :
  new_events st (State n (trace st ++ evs)) = evs.
Proof. unfold new_events. simpl. by rewrite drop_app_length. Qed.

Section CommandRunner.

Variable h : Host.

Lemma run_command_dry (command : list string) (st : state) :
  run_command h command true st
  = (Ok None,
     State (fs st)
       (trace st ++ [Print ("[COMMAND] " +:+ PyStr.join " " command)])).
Proof. done. Qed.

Lemma run_command_live (command : list string) (st : state) :
  run_command h command false st
  = (Ok (Some {| args := command;
                 returncode := (spawn h command (fs st)).2 |}),
     State (spawn h command (fs st)).1
       (trace st ++ [Print ("[COMMAND] " +:+ PyStr.join " " command);
                     Run command (spawn h command (fs st)).2])).
Proof.
  unfold run_command, subprocess_run. run_monad. by rewrite app_trace.
Qed.

(** C7.  [run_command] first prints the line "[COMMAND] " followed by the
    arguments joined by spaces.  With the dry-run flag it then returns
    [None]: no process runs and the file system is as before.  Without the
    flag it runs the process to completion, once, and returns the status
    object whose [returncode] is the exit code of that process. *)
Theorem run_command_spec (command : list string) (st : state) :
  let line := Print ("[COMMAND] " +:+ PyStr.join " " command) in
  let p := spawn h command (fs st) in
  run_command h command true st
    = (Ok None, State (fs st) (trace st ++ [line]))
  ∧ run_command h command false st
    = (Ok (Some {| args := command; returncode := p.2 |}),
       State p.1 (trace st ++ [line; Run command p.2])).
Proof. split; [apply run_command_dry | apply run_command_live]. Qed.

End CommandRunner.

(** *** The platform resolver *)

Section PlatformResolver.

Variable h : Host.

Lemma get_lib_extension_cases (st : state) :
  get_lib_extension h st
  = ((if bool_decide (PyStr.lower (platform_system h) = "darwin")
      then Ok "dylib"
      else if bool_decide (PyStr.lower (platform_system h) = "linux")
      then Ok "so"
      else if bool_decide (PyStr.lower (platform_system h) = "windows")
      then Ok "dll"
      else Raise (Exn SystemExit unknown_os_message)),
     State (fs st) (trace st ++ [Enter "get_lib_extension"])).
Proof.
  unfold get_lib_extension. run_monad.
  repeat case_bool_decide; done.
Qed.

(** C2.  With the lower-cased operating system identifier "darwin",
    "linux" or "windows", [get_lib_extension] returns "dylib", "so" or
    "dll"; with any other identifier it returns no value but raises
    [SystemExit], which ends the script with status 1 and the message on
    standard error. *)
Theorem get_lib_extension_spec (st : state) :
  let os := PyStr.lower (platform_system h) in
  let st' := State (fs st) (trace st ++ [Enter "get_lib_extension"]) in
  (os = "darwin" → get_lib_extension h st = (Ok "dylib", st'))
  ∧ (os = "linux" → get_lib_extension h st = (Ok "so", st'))
  ∧ (os = "windows" → get_lib_extension h st = (Ok "dll", st'))
  ∧ (os ∉ ["darwin"; "linux"; "windows"] →
     get_lib_extension h st = (Raise (Exn SystemExit unknown_os_message), st')
     ∧ (run_script h (fs st)).1
       = {| exit_status := 1; stderr := Some unknown_os_message |}).
Proof.
  intros os st'. split; [|split; [|split]].
  - intros E. rewrite get_lib_extension_cases. fold os. by rewrite E.
  - intros E. rewrite get_lib_extension_cases. fold os. by rewrite E.
  - intros E. rewrite get_lib_extension_cases. fold os. by rewrite E.
  - intros E. apply not_elem_of_cons in E as [E1 E].
    apply not_elem_of_cons in E as [E2 E].
    apply not_elem_of_cons in E as [E3 _].
    assert (get_lib_extension h st
            = (Raise (Exn SystemExit unknown_os_message), st')) as R.
    { rewrite get_lib_extension_cases.
      by rewrite !bool_decide_eq_false_2. }
    split; [done|].
    unfold run_script, dunder_main, main. run_monad.
    rewrite get_lib_extension_cases.
    by rewrite !bool_decide_eq_false_2.
Qed.

End PlatformResolver.

(** The four cases of C2, on hosts that report "Darwin", "Linux",
    "Windows" and "FreeBSD". *)
Lemma get_lib_extension_spec_witness :
  (get_lib_extension darwin_host fresh_state).1 = Ok "dylib"
  ∧ (get_lib_extension linux_host fresh_state).1 = Ok "so"
  ∧ (get_lib_extension windows_host fresh_state).1 = Ok "dll"
  ∧ (get_lib_extension freebsd_host fresh_state).1
    = Raise (Exn SystemExit unknown_os_message).
Proof.
  pose proof (get_lib_extension_spec darwin_host fresh_state) as (D & _).
  pose proof (get_lib_extension_spec linux_host fresh_state) as (_ & L & _).
  pose proof (get_lib_extension_spec windows_host fresh_state)
    as (_ & _ & W & _).
  pose proof (get_lib_extension_spec freebsd_host fresh_state)
    as (_ & _ & _ & U).
  split; [|split; [|split]].
  - rewrite D; reflexivity.
  - rewrite L; reflexivity.
  - rewrite W; reflexivity.
  - destruct U as [U _]; [|rewrite U; reflexivity].
    vm_compute. intros E. not_in_list E.
Defined.

(** *** The library builder and the abort of the run *)

Section LibraryBuilder.

Variable h : Host.

Lemma build_library_cases (st : state) :
  build_library h st
  = ((if bool_decide ((spawn h build_library_command (fs st)).2 ≠ 0)
      then Raise (Exn SystemExit build_failure_message) else Ok ()),
     State (spawn h build_library_command (fs st)).1
       (trace st
        ++ build_library_events (spawn h build_library_command (fs st)).2)).
Proof.
  unfold build_library, build_library_events, run_command, subprocess_run.
  run_monad. rewrite <- !app_assoc. simpl.
  case_bool_decide; done.
Qed.

Lemma main_unfold (st : state) :
  main h st
  = match get_lib_extension h st with
    | (Ok lib_extension, st1) =>
        match build_library h st1 with
        | (Ok _, st2) => after_build_library h lib_extension st2
        | (Raise e, st2) => (Raise e, st2)
        end
    | (Raise e, st1) => (Raise e, st1)
    end.
Proof. reflexivity. Qed.

Lemma get_lib_extension_recognised (st : state) :
  PyStr.lower (platform_system h) ∈ ["darwin"; "linux"; "windows"] →
  ∃ lib_extension,
    lib_extension ∈ ["dylib"; "so"; "dll"]
    ∧ get_lib_extension h st
      = (Ok lib_extension,
         State (fs st) (trace st ++ [Enter "get_lib_extension"])).
Proof.
  intros E. rewrite get_lib_extension_cases.
  repeat case_bool_decide.
  - eexists. split; [|done]. in_list.
  - eexists. split; [|done]. in_list.
  - eexists. split; [|done]. in_list.
  - exfalso. not_in_list E; congruence.
Qed.

(** C3.  On a recognised platform, when the process of the library build
    ends with a non-zero exit code, [main] raises [SystemExit] out of
    [build_library]: the only steps entered are [get_lib_extension] and
    [build_library], the only process launched is the build, the file
    system is as that process left it, and the script ends with status 1.
    None of [generate_binding], [copy_cdylib], [dependencies], [build_jar]
    and [run_tests] is entered. *)
Theorem failed_build_stops_run (st : state) :
  PyStr.lower (platform_system h) ∈ ["darwin"; "linux"; "windows"] →
  (spawn h build_library_command (fs st)).2 ≠ 0 →
  let p := spawn h build_library_command (fs st) in
  let st' :=
    State p.1
      (trace st ++ Enter "get_lib_extension" :: build_library_events p.2) in
  main h st = (Raise (Exn SystemExit build_failure_message), st')
  ∧ dunder_main h st = (Raise (Exn SystemExit build_failure_message), st')
  ∧ entered (new_events st st') = ["get_lib_extension"; "build_library"]
  ∧ launched (new_events st st') = [build_library_command]
  ∧ (∀ f, f ∈ ["generate_binding"; "copy_cdylib"; "dependencies";
               "build_jar"; "run_tests"] → Enter f ∉ new_events st st')
  ∧ exit_status (interpreter_exit (dunder_main h st).1) = 1.
Proof.
  intros Hos Hrc p st'.
  assert (main h st = (Raise (Exn SystemExit build_failure_message), st'))
    as Hmain.
  { rewrite main_unfold.
    destruct (get_lib_extension_recognised st Hos) as (ext & _ & ->).
    rewrite build_library_cases. simpl.
    rewrite bool_decide_eq_true_2 by done.
    unfold st', p. by rewrite app_trace. }
  assert (dunder_main h st
          = (Raise (Exn SystemExit build_failure_message), st')) as Hdm.
  { unfold dunder_main. by rewrite Hmain. }
  split; [done|]. split; [done|].
  unfold st'. rewrite new_events_app.
  split; [done|]. split; [done|]. split.
  - intros f Hf Hin. unfold build_library_events in Hin.
    repeat (apply elem_of_cons in Hin as [Hin|Hin];
            [try discriminate; inversion Hin; subst; not_in_list Hf|]).
    by apply elem_of_nil in Hin.
  - by rewrite Hdm.
Qed.

End LibraryBuilder.

Lemma failed_build_stops_run_witness :
  (spawn linux_host build_library_command (fs blocked_state)).2 = 101
  ∧ main linux_host blocked_state
    = (Raise (Exn SystemExit build_failure_message),
       State blocked_target
         (Enter "get_lib_extension" :: build_library_events 101)).
Proof.
  split; [reflexivity|].
  refine (proj1 (failed_build_stops_run linux_host blocked_state _ _)).
  - vm_compute. in_list.
  - vm_compute. discriminate.
Defined.

(** *** The file system *)

Module FSFacts.

Lemma lookup_app (p q : FS.path) (n : node) :
  FS.lookup (p ++ q) n = FS.lookup p n ≫= FS.lookup q.
Proof.
  revert n. induction p as [|c p IH]; intros n; simpl; [done|].
  destruct n as [content|m]; [done|].
  destruct (m !! c) as [n'|]; [apply IH|done].
Qed.

(** What exists below a path shows that the path exists. *)
Lemma exists_parent (p q : FS.path) (n : node) :
  FS.exists_ (p ++ q) n = true → FS.exists_ p n = true.
Proof.
  unfold FS.exists_. rewrite lookup_app.
  by destruct (FS.lookup p n).
Qed.

Lemma lookup_delete_same (p : FS.path) (n : node) :
  p ≠ [] → FS.lookup p (FS.delete p n) = None.
Proof.
  revert n. induction p as [|c p IH]; intros n Hp; [done|].
  destruct n as [content|m]; [done|].
  destruct p as [|c' p'].
  - simpl. by rewrite lookup_delete_eq.
  - cbn [FS.delete]. destruct (m !! c) as [n'|] eqn:E.
    + cbn [FS.lookup]. rewrite lookup_insert_eq. by apply IH.
    + cbn [FS.lookup]. by rewrite E.
Qed.

(** Unlinking [p] changes nothing at a path that is neither below nor
    above [p]. *)
Lemma lookup_delete_other (p q : FS.path) (n : node) :
  ¬ p `prefix_of` q → ¬ q `prefix_of` p →
  FS.lookup q (FS.delete p n) = FS.lookup q n.
Proof.
  revert q n. induction p as [|c p IH]; intros q n Hpq Hqp; [done|].
  destruct q as [|d q]; [by destruct Hqp; apply prefix_nil|].
  destruct n as [content|m]; [done|].
  destruct p as [|c' p'].
  - simpl. destruct (decide (c = d)) as [->|Hne].
    + destruct Hpq. apply prefix_cons, prefix_nil.
    + by rewrite lookup_delete_ne.
  - cbn [FS.delete]. destruct (m !! c) as [n'|] eqn:E; [|done].
    cbn [FS.lookup]. destruct (decide (c = d)) as [->|Hne].
    + rewrite lookup_insert_eq, E. apply IH.
      * intros H. apply Hpq. by apply prefix_cons.
      * intros H. apply Hqp. by apply prefix_cons.
    + by rewrite lookup_insert_ne.
Qed.

End FSFacts.

(** *** The paths of the script, on either flavour of [os.path] *)

Section Paths.

Variable h : Host.

Lemma resolve_vendor_folder :
  resolve h vendor_folder = out_dir_path ++ ["vendor"].
Proof. unfold resolve. destruct (nt h); reflexivity. Qed.

Lemma resolve_jna_file :
  resolve h jna_file = (out_dir_path ++ ["vendor"]) ++ ["jna.jar"].
Proof. unfold resolve. destruct (nt h); reflexivity. Qed.

Lemma resolve_kotlinx_coroutines_file :
  resolve h kotlinx_coroutines_file
  = (out_dir_path ++ ["vendor"]) ++ ["kotlinx-coroutines.jar"].
Proof. unfold resolve. destruct (nt h); reflexivity. Qed.

Lemma resolve_jar_file :
  resolve h jar_file = out_dir_path ++ ["rpc_example.jar"].
Proof. unfold resolve. destruct (nt h); reflexivity. Qed.

(** [os.path.join] puts a backslash before the library name on Windows;
    the directory it names is the same. *)
Lemma resolve_kotlin_lib_path :
  resolve h (kotlin_lib_path h) = out_dir_path ++ ["rpc_example"].
Proof. unfold resolve, kotlin_lib_path, os_path_join. destruct (nt h); reflexivity. Qed.

Lemma resolve_bindings_source :
  resolve h bindings_source
  = out_dir_path ++ ["uniffi"; "rpc_example"; "rpc_example.kt"].
Proof. unfold resolve. destruct (nt h); reflexivity. Qed.

End Paths.

(** *** The dependency fetcher *)

Section DependencyFetcher.

Variable h : Host.

(** C5.  When [jna.jar] and [kotlinx-coroutines.jar] both exist in the
    vendor directory, [dependencies] returns after printing one
    "already exists" line for each: it launches no process (so nothing is
    fetched), creates no directory, and leaves the file system as it
    was. *)
Theorem dependencies_cache_hit (st : state) :
  FS.exists_ (resolve h jna_file) (fs st) = true →
  FS.exists_ (resolve h kotlinx_coroutines_file) (fs st) = true →
  let st' :=
    State (fs st)
      (trace st ++
       [Enter "dependencies";
        Print "[INFO] JNA already exists at ./rpc_example/kotlin/vendor/jna.jar";
        Print "[INFO] kotlinx-coroutines already exists at ./rpc_example/kotlin/vendor/kotlinx-coroutines.jar"]) in
  dependencies h st = (Ok (), st')
  ∧ launched (new_events st st') = []
  ∧ fs st' = fs st.
Proof.
  intros Hjna Hkx st'.
  assert (FS.exists_ (resolve h vendor_folder) (fs st) = true) as Hv.
  { rewrite resolve_vendor_folder. rewrite resolve_jna_file in Hjna.
    by apply FSFacts.exists_parent in Hjna. }
  split; [|split; [|done]].
  - unfold dependencies, os_path_exists. run_monad.
    rewrite Hv. simpl. rewrite Hjna. simpl. rewrite Hkx. simpl.
    unfold st'. by rewrite <- !app_assoc.
  - unfold st'. by rewrite new_events_app.
Qed.

End DependencyFetcher.

Lemma dependencies_cache_hit_witness :
  FS.exists_ (resolve linux_host jna_file) (fs vendored_state) = true
  ∧ FS.exists_ (resolve linux_host kotlinx_coroutines_file)
      (fs vendored_state) = true
  ∧ (dependencies linux_host vendored_state).1 = Ok ()
  ∧ launched (trace (dependencies linux_host vendored_state).2) = [].
Proof.
  assert (FS.exists_ (resolve linux_host jna_file) (fs vendored_state)
          = true) as Hjna by (vm_compute; reflexivity).
  assert (FS.exists_ (resolve linux_host kotlinx_coroutines_file)
            (fs vendored_state) = true) as Hkx by (vm_compute; reflexivity).
  destruct (dependencies_cache_hit linux_host vendored_state Hjna Hkx)
    as (Hd & _ & _).
  split; [exact Hjna|]. split; [exact Hkx|].
  rewrite Hd. split; vm_compute; reflexivity.
Defined.

(** *** The package builder *)

Section PackageBuilder.

Variable h : Host.

(** C6.  When [rpc_example.jar] exists as a file, [build_jar] removes it
    before it hands the compiler command to [run_command]: the removal
    precedes the echo of the command in the trace, the step returns, and
    afterwards nothing exists under the name of the archive. *)
Theorem build_jar_removes_stale_archive (st : state) (content : string) :
  FS.lookup (resolve h jar_file) (fs st) = Some (File content) →
  let n' := FS.delete (resolve h jar_file) (fs st) in
  build_jar h st
  = (Ok (),
     State n'
       (trace st ++
        [Enter "build_jar"; Print "[INFO] Building Kotlin JAR...";
         Remove jar_file; build_jar_echo h]))
  ∧ FS.exists_ (resolve h jar_file) n' = false.
Proof.
  intros Hjar n'. split.
  - unfold build_jar, os_path_exists, os_remove, run_command. run_monad.
    unfold FS.exists_. rewrite Hjar. simpl. rewrite Hjar. simpl.
    by rewrite <- !app_assoc.
  - unfold FS.exists_, n'. rewrite FSFacts.lookup_delete_same; [done|].
    by rewrite resolve_jar_file.
Qed.

End PackageBuilder.

Lemma build_jar_removes_stale_archive_witness :
  FS.lookup (resolve windows_host jar_file) (fs stale_archive_state)
  = Some (File "old archive")
  ∧ (build_jar windows_host stale_archive_state).1 = Ok ()
  ∧ FS.exists_ (resolve windows_host jar_file)
      (fs (build_jar windows_host stale_archive_state).2) = false.
Proof.
  assert (FS.lookup (resolve windows_host jar_file) (fs stale_archive_state)
          = Some (File "old archive")) as Hjar by (vm_compute; reflexivity).
  destruct (build_jar_removes_stale_archive windows_host stale_archive_state
              _ Hjar) as (Hb & Hgone).
  split; [exact Hjar|]. rewrite Hb. split; [reflexivity|exact Hgone].
Defined.

(** *** The binding generator *)

Section BindingGenerator.

Variable h : Host.

Lemma kotlin_lib_path_apart_from_bindings :
  ¬ resolve h (kotlin_lib_path h) `prefix_of` resolve h bindings_source
  ∧ ¬ resolve h bindings_source `prefix_of` resolve h (kotlin_lib_path h).
Proof.
  rewrite resolve_kotlin_lib_path, resolve_bindings_source.
  split; intros [k Hk]; discriminate.
Qed.

(** The directory [generate_binding] removes is not the one the generator
    writes to: whatever the state, the source file [build_jar] compiles is
    after lines 46-49 what it was before. *)
Lemma generate_binding_predelete_keeps_bindings (st : state) :
  FS.lookup (resolve h bindings_source)
    (fs (generate_binding_predelete h st).2)
  = FS.lookup (resolve h bindings_source) (fs st).
Proof.
  unfold generate_binding_predelete, os_path_exists, shutil_rmtree.
  run_monad.
  destruct (FS.exists_ _ _); [|done]. simpl.
  destruct (FS.lookup (resolve h (kotlin_lib_path h)) (fs st))
    as [[content|m]|]; simpl; try done.
  apply FSFacts.lookup_delete_other; apply kotlin_lib_path_apart_from_bindings.
Qed.

End BindingGenerator.

(** C4.  Running [generate_binding] twice on the reference host, after a
    successful library build in a fresh checkout: the first run produces
    [uniffi/rpc_example/rpc_example.kt] in the output directory; the removal
    step of the second run (lines 46-49) looks at
    [rpc_example/kotlin/rpc_example], finds nothing, removes nothing, and
    the file of the first run is still there when the generator starts
    again.  On every host and in every state, that step leaves the source
    file the generator writes as it finds it. *)
Theorem rerun_predelete_keeps_first_output :
  FS.lookup (resolve windows_host bindings_source) (fs built_state) = None
  ∧ FS.lookup (resolve windows_host bindings_source) (fs generated_state)
    = Some (File "package uniffi.rpc_example")
  ∧ kotlin_lib_path windows_host = "./rpc_example/kotlin\rpc_example"
  ∧ (generate_binding_predelete windows_host generated_state).1 = Ok ()
  ∧ new_events generated_state
      (generate_binding_predelete windows_host generated_state).2
    = [Print "[INFO] Generating Kotlin binding..."]
  ∧ fs (generate_binding_predelete windows_host generated_state).2
    = fs generated_state
  ∧ FS.lookup (resolve windows_host bindings_source)
      (fs (generate_binding_predelete windows_host generated_state).2)
    = Some (File "package uniffi.rpc_example")
  ∧ (∀ h st,
       FS.lookup (resolve h bindings_source)
         (fs (generate_binding_predelete h st).2)
       = FS.lookup (resolve h bindings_source) (fs st)).
Proof.
  repeat (split; [vm_compute; reflexivity|]).
  apply generate_binding_predelete_keeps_bindings.
Qed.

(** *** The compiler commands: name and classpath *)

Section CompilerCommands.

Variable h : Host.

Lemma run_tests_total (st : state) :
  run_tests h st = (Ok (), State (fs st) (trace st ++ run_tests_events h)).
Proof.
  unfold run_tests, run_tests_events, run_command. run_monad.
  by rewrite <- !app_assoc.
Qed.

Lemma CLASSPATH_set (v : string) :
  environ h !! "CLASSPATH" = Some v → CLASSPATH h = v.
Proof. unfold CLASSPATH. by intros ->. Qed.

Lemma CLASSPATH_unset :
  environ h !! "CLASSPATH" = None → CLASSPATH h = DEFAULT_CLASSPATH.
Proof. unfold CLASSPATH. by intros ->. Qed.

(** C8.  [CLASSPATH] is the value of the environment variable [CLASSPATH]
    when it is set, and otherwise the default, whose two entries are
    [jna.jar] and [kotlinx-coroutines.jar] in the vendor directory.  The
    argument after [-classpath] in the command of [build_jar] is that
    string in double quotes; in the command of [run_tests] it is that string
    followed by the archive and the output directory, in double quotes. *)
Theorem classpath_override_or_default :
  (∀ v, environ h !! "CLASSPATH" = Some v → CLASSPATH h = v)
  ∧ (environ h !! "CLASSPATH" = None → CLASSPATH h = DEFAULT_CLASSPATH)
  ∧ PyStr.split_on (λ a, bool_decide (a = ";"%char)) EmptyString
      DEFAULT_CLASSPATH
    = [jna_file; kotlinx_coroutines_file]
  ∧ arg_after "-classpath" (build_jar_command h)
    = Some (dquote +:+ CLASSPATH h +:+ dquote)
  ∧ (∀ test_name,
       arg_after "-classpath" (run_tests_command h test_name)
       = Some (dquote +:+ CLASSPATH h
               +:+ ";./rpc_example/kotlin/rpc_example.jar;./rpc_example/kotlin"
               +:+ dquote)).
Proof.
  split; [apply CLASSPATH_set|]. split; [apply CLASSPATH_unset|].
  split; [reflexivity|]. split; [reflexivity|]. intros t. reflexivity.
Qed.

(** C10.  Whatever the host reports as its operating system, the command
    of [build_jar] and, for every test, the command of [run_tests] start
    with "kotlinc.bat"; the echo lines of the two steps start with
    "[COMMAND] kotlinc.bat ". *)
Theorem compiler_name_is_fixed :
  head (build_jar_command h) = Some "kotlinc.bat"
  ∧ (∀ test_name, head (run_tests_command h test_name) = Some "kotlinc.bat")
  ∧ (∃ rest, build_jar_echo h = Print ("[COMMAND] kotlinc.bat " +:+ rest))
  ∧ (∀ st,
       ∃ rest,
         run_tests h st
         = (Ok (),
            State (fs st)
              (trace st ++
               [Enter "run_tests";
                Print "[INFO] Executing tests...";
                Print "[INFO] Running blocking_test.kts ...";
                Print ("[COMMAND] kotlinc.bat " +:+ rest)]))).
Proof.
  split; [reflexivity|]. split; [reflexivity|]. split.
  - eexists. reflexivity.
  - intros st. eexists. rewrite run_tests_total. reflexivity.
Qed.

End CompilerCommands.

(** C8 on a host with the variable set and on a host without it. *)
Lemma classpath_override_or_default_witness :
  CLASSPATH (Reference.host "Windows" "dll" {[ "CLASSPATH" := "libs/*" ]})
  = "libs/*"
  ∧ CLASSPATH windows_host = DEFAULT_CLASSPATH.
Proof.
  split.
  - apply (proj1 (classpath_override_or_default
                    (Reference.host "Windows" "dll"
                       {[ "CLASSPATH" := "libs/*" ]}))).
    vm_compute. reflexivity.
  - apply (proj1 (proj2 (classpath_override_or_default windows_host))).
    vm_compute. reflexivity.
Defined.

(** *** The top-level handler *)

Section TopLevel.

Variable h : Host.

Lemma dunder_main_cases (st : state) :
  dunder_main h st
  = match main h st with
    | (Ok _, st') => (Ok (), st')
    | (Raise e, st') =>
        if is_Exception (exn_class e)
        then (Raise (Exn SystemExit
                       (error_prefix (exn_class e) +:+ exn_str e)), st')
        else (Raise e, st')
    end.
Proof.
  unfold dunder_main, error_prefix.
  destruct (main h st) as [[u|[c s]] st']; [done|].
  simpl. case_bool_decide as E; [by rewrite E|done].
Qed.

(** C9, as the code has it.  What [main] raises reaches the handler of the
    script once.  An exception of a class derived from [Exception] is
    replaced there by [SystemExit] with the message "[ERROR] Command
    failed: " (for [CalledProcessError]) or "[ERROR] An error occurred: "
    followed by the text of the exception.  A [SystemExit] raised by a step
    is not caught by either clause and leaves the script as it is, with the
    message of the step.  In both cases the state is the one [main] left,
    and the process ends with status 1 and the message on standard
    error. *)
Theorem top_level_handler (st st' : state) (e : exn) :
  main h st = (Raise e, st') →
  (is_Exception (exn_class e) = true →
   dunder_main h st
   = (Raise (Exn SystemExit (error_prefix (exn_class e) +:+ exn_str e)), st'))
  ∧ (is_Exception (exn_class e) = false →
     exn_class e = SystemExit ∧ dunder_main h st = (Raise e, st'))
  ∧ interpreter_exit (dunder_main h st).1
    = {| exit_status := 1;
         stderr := Some (if is_Exception (exn_class e)
                         then error_prefix (exn_class e) +:+ exn_str e
                         else exn_str e) |}.
Proof.
  intros Hmain. rewrite dunder_main_cases, Hmain.
  split; [by intros ->|]. split.
  - intros E. rewrite E. by destruct e as [[] s].
  - by destruct e as [[] s].
Qed.

End TopLevel.

(** With idle tools the library is missing when [copy_cdylib] runs: the
    [FileNotFoundError] of [shutil.copy] is caught at the top level. *)
Lemma top_level_handler_witness :
  (main idle_host fresh_state).1
  = Raise (Exn FileNotFoundError
             "[Errno 2] No such file or directory: './target/release/rpc_example.so'")
  ∧ (dunder_main idle_host fresh_state).1
    = Raise (Exn SystemExit
               "[ERROR] An error occurred: [Errno 2] No such file or directory: './target/release/rpc_example.so'")
  ∧ (run_script idle_host Reference.fresh_checkout).1
    = {| exit_status := 1;
         stderr := Some "[ERROR] An error occurred: [Errno 2] No such file or directory: './target/release/rpc_example.so'" |}.
Proof.
  assert (main idle_host fresh_state
          = (Raise (Exn FileNotFoundError
                      "[Errno 2] No such file or directory: './target/release/rpc_example.so'"),
             (main idle_host fresh_state).2)) as Hmain
    by (vm_compute; reflexivity).
  destruct (top_level_handler idle_host fresh_state _ _ Hmain)
    as (Hcaught & _ & Hexit).
  split; [by rewrite Hmain|]. split.
  - rewrite Hcaught; reflexivity.
  - unfold run_script. fold fresh_state. rewrite Hexit. reflexivity.
Defined.

(** On a host with an unknown operating system the [SystemExit] raised by
    [get_lib_extension] passes both [except] clauses: the script ends with
    the message of the step, which the handler has not formatted. *)
Lemma unknown_os_exit_is_not_formatted :
  (dunder_main freebsd_host fresh_state).1
  = Raise (Exn SystemExit unknown_os_message)
  ∧ ¬ every_exception_formatted freebsd_host fresh_state.
Proof.
  split; [vm_compute; reflexivity|].
  intros Hall.
  destruct (Hall (Exn SystemExit unknown_os_message)
              (main freebsd_host fresh_state).2)
    as [msg Hmsg]; [vm_compute; reflexivity|].
  apply (f_equal fst) in Hmsg. vm_compute in Hmsg. discriminate.
Qed.

(** *** What any run launches, and what it leaves of the archive *)

Section Footprint.

Variable h : Host.





















End Footprint.

Section NoArchive.

Variable h : Host.





End NoArchive.

(** *** The full run *)





(** ** Further properties of the steps *)

(** *** More of the file system *)

Module FSMore.

Lemma lookup_delete_below (p q : FS.path) (n : node) :
  p ≠ [] → FS.lookup (p ++ q) (FS.delete p n) = None.
Proof.
  intros Hp. rewrite FSFacts.lookup_app.
  by rewrite FSFacts.lookup_delete_same.
Qed.

Lemma put_cons2 (c c' : string) (p : FS.path) (x : node)
  (m : gmap string node) :
  FS.put (c :: c' :: p) x (Dir m)
  = match m !! c with
    | Some n1 =>
        match FS.put (c' :: p) x n1 with
        | Some r => Some (Dir (<[c := r]> m))
        | None => None
        end
    | None => None
    end.
Proof. reflexivity. Qed.

Lemma put_is_Some (p : FS.path) (c : string) (x n : node) :
  FS.is_dir p n = true → is_Some (FS.put (p ++ [c]) x n).
Proof.
  revert n. unfold FS.is_dir.
  induction p as [|d p IH]; intros n Hdir; simpl in *.
  - destruct n; [done|eauto].
  - destruct n as [content|m]; [done|].
    destruct (m !! d) as [n'|] eqn:E; [|done].
    destruct (IH n' Hdir) as [r Hr].
    destruct (p ++ [c]) eqn:Hpc; [by destruct p|].
    rewrite Hr. eauto.
Qed.

Lemma lookup_put_same (p : FS.path) (x n n' : node) :
  FS.put p x n = Some n' → FS.lookup p n' = Some x.
Proof.
  revert n n'. induction p as [|c p IH]; intros n n' Hput; [done|].
  destruct n as [content|m]; [done|].
  destruct p as [|c' p'].
  - simpl in Hput. injection Hput as <-. simpl. by rewrite lookup_insert_eq.
  - rewrite put_cons2 in Hput. destruct (m !! c) as [n1|]; [|done].
    destruct (FS.put (c' :: p') x n1) as [r|] eqn:Hr; [|done].
    injection Hput as <-.
    change (FS.lookup (c :: c' :: p') (Dir (<[c:=r]> m)))
      with (match <[c:=r]> m !! c with
            | Some n2 => FS.lookup (c' :: p') n2
            | None => None
            end).
    rewrite lookup_insert_eq. by eapply IH.
Qed.

(** Writing at [p] changes nothing at a path that is neither below nor
    above [p]. *)
Lemma lookup_put_other (p q : FS.path) (x n n' : node) :
  FS.put p x n = Some n' →
  ¬ p `prefix_of` q → ¬ q `prefix_of` p →
  FS.lookup q n' = FS.lookup q n.
Proof.
  revert q n n'. induction p as [|c p IH]; intros q n n' Hput Hpq Hqp;
    [done|].
  destruct q as [|d q]; [by destruct Hqp; apply prefix_nil|].
  destruct n as [content|m]; [done|].
  destruct p as [|c' p'].
  - simpl in Hput. injection Hput as <-. simpl.
    destruct (decide (c = d)) as [->|Hne].
    + destruct Hpq. apply prefix_cons, prefix_nil.
    + by rewrite lookup_insert_ne.
  - rewrite put_cons2 in Hput. destruct (m !! c) as [n1|] eqn:E; [|done].
    destruct (FS.put (c' :: p') x n1) as [r|] eqn:Hr; [|done].
    injection Hput as <-. cbn [FS.lookup].
    destruct (decide (c = d)) as [->|Hne].
    + rewrite lookup_insert_eq, E. eapply IH; [done|..].
      * intros H. apply Hpq. by apply prefix_cons.
      * intros H. apply Hqp. by apply prefix_cons.
    + by rewrite lookup_insert_ne.
Qed.

(** [mkdirs] fails exactly when a regular file lies on the way. *)
Lemma mkdirs_None (p : FS.path) (n : node) :
  FS.mkdirs p n = None
  ↔ ∃ q content, q `prefix_of` p ∧ FS.lookup q n = Some (File content).
Proof.
  revert n. induction p as [|c p IH]; intros n.
  - destruct n as [content|m]; simpl.
    + split; [|done]. intros _. exists [], content. by split.
    + split; [done|]. intros (q & content & Hq & Hl).
      apply prefix_nil_inv in Hq as ->. done.
  - destruct n as [content|m]; cbn [FS.mkdirs].
    + split; [|done]. intros _. exists [], content.
      split; [apply prefix_nil|done].
    + destruct (FS.mkdirs p (default (Dir ∅) (m !! c))) as [r|] eqn:Hr.
      * split; [done|]. intros (q & content & Hq & Hl).
        assert (FS.mkdirs p (default (Dir ∅) (m !! c)) = None) as Hnone;
          [|by rewrite Hnone in Hr].
        apply IH. destruct q as [|d q]; [done|].
        apply prefix_cons_inv_1 in Hq as Hd. subst d.
        apply prefix_cons_inv_2 in Hq.
        cbn [FS.lookup] in Hl. destruct (m !! c) as [n1|]; [|done].
        by exists q, content.
      * split; [|done]. intros _.
        apply IH in Hr as (q & content & Hq & Hl).
        destruct (m !! c) as [n1|] eqn:E; simpl in Hl.
        -- exists (c :: q), content. split; [by apply prefix_cons|].
           cbn [FS.lookup]. by rewrite E.
        -- destruct q as [|d q]; [done|]. simpl in Hl.
           rewrite lookup_empty in Hl. done.
Qed.

(** A directory [mkdirs] had to create is there afterwards, and empty. *)
Lemma mkdirs_new (p : FS.path) (n n' : node) :
  FS.lookup p n = None → FS.mkdirs p n = Some n' →
  FS.lookup p n' = Some (Dir ∅).
Proof.
  revert n n'. induction p as [|c p IH]; intros n n' Hl Hm; [done|].
  destruct n as [content|m]; [done|]. cbn [FS.mkdirs] in Hm.
  destruct (FS.mkdirs p (default (Dir ∅) (m !! c))) as [r|] eqn:Hr; [|done].
  injection Hm as <-. cbn [FS.lookup]. rewrite lookup_insert_eq.
  cbn [FS.lookup] in Hl. destruct (m !! c) as [n1|] eqn:E; simpl in Hr.
  - by eapply IH.
  - destruct p as [|d p'].
    + simpl in Hr. by injection Hr as <-.
    + eapply IH; [|done]. simpl. by rewrite lookup_empty.
Qed.

Lemma delete_cons2 (c c' : string) (p : FS.path) (m : gmap string node) :
  FS.delete (c :: c' :: p) (Dir m)
  = match m !! c with
    | Some n' => Dir (<[c := FS.delete (c' :: p) n']> m)
    | None => Dir m
    end.
Proof. reflexivity. Qed.

Lemma delete_absent (p : FS.path) (n : node) :
  FS.lookup p n = None → FS.delete p n = n.
Proof.
  revert n. induction p as [|c p IH]; intros n Hl; [done|].
  destruct n as [content|m]; [done|].
  destruct p as [|c' p'].
  - simpl in *. destruct (m !! c) eqn:E; [done|].
    by rewrite delete_id.
  - rewrite delete_cons2.
    change (FS.lookup (c :: c' :: p') (Dir m))
      with (match m !! c with
            | Some n2 => FS.lookup (c' :: p') n2
            | None => None
            end) in Hl.
    destruct (m !! c) as [n1|] eqn:E; [|done].
    rewrite (IH n1 Hl). by rewrite insert_id.
Qed.

End FSMore.

(** *** The artifact copier *)

Section ArtifactCopier.

Variable h : Host.

Lemma resolve_cdylib (lib_extension : string) :
  lib_extension ∈ lib_extensions →
  resolve h (cdylib_src lib_extension)
  = ["target"; "release"; "rpc_example." +:+ lib_extension]
  ∧ resolve h (cdylib_dest lib_extension)
    = out_dir_path ++ ["rpc_example." +:+ lib_extension].
Proof.
  intros He. unfold resolve. unfold lib_extensions in He.
  apply elem_of_cons in He as [->|He]; [by destruct (nt h)|].
  apply elem_of_cons in He as [->|He]; [by destruct (nt h)|].
  apply elem_of_cons in He as [->|He]; [by destruct (nt h)|].
  by apply elem_of_nil in He.
Qed.

(** X1.  With the built library in place and the output directory there,
    [copy_cdylib] returns; the copy has the content of the library, the
    library is still there, and nothing changes at any path that is
    neither below nor above the copy. *)
Theorem copy_cdylib_copies (lib_extension content : string) (st : state) :
  lib_extension ∈ lib_extensions →
  FS.lookup (resolve h (cdylib_src lib_extension)) (fs st)
  = Some (File content) →
  FS.is_dir out_dir_path (fs st) = true →
  FS.is_dir (resolve h (cdylib_dest lib_extension)) (fs st) = false →
  ∃ n',
    copy_cdylib h lib_extension st
    = (Ok (),
       State n'
         (trace st ++ copy_cdylib_prints lib_extension
          ++ [Copy (cdylib_src lib_extension) (cdylib_dest lib_extension)]))
    ∧ FS.lookup (resolve h (cdylib_dest lib_extension)) n'
      = Some (File content)
    ∧ FS.lookup (resolve h (cdylib_src lib_extension)) n'
      = Some (File content)
    ∧ (∀ q, ¬ resolve h (cdylib_dest lib_extension) `prefix_of` q →
            ¬ q `prefix_of` resolve h (cdylib_dest lib_extension) →
            FS.lookup q n' = FS.lookup q (fs st)).
Proof.
  intros He Hsrc Hout Hdest.
  destruct (resolve_cdylib lib_extension He) as [Rs Rd].
  destruct (FSMore.put_is_Some out_dir_path ("rpc_example." +:+ lib_extension)
              (File content) (fs st) Hout) as [n' Hput].
  rewrite <- Rd in Hput.
  assert (resolve h (cdylib_src lib_extension)
          ≠ resolve h (cdylib_dest lib_extension)) as Hne.
  { rewrite Rs, Rd. discriminate. }
  exists n'. split; [|split; [|split]].
  - unfold copy_cdylib, shutil_copy, copy_cdylib_prints.
    fold (cdylib_src lib_extension) (cdylib_dest lib_extension).
    run_monad. rewrite Hdest. rewrite (bool_decide_eq_false_2 _ Hne).
    rewrite andb_false_r. rewrite Hsrc. simpl. rewrite Hput. simpl.
    rewrite Hdest. simpl. by rewrite <- !app_assoc.
  - by eapply FSMore.lookup_put_same.
  - rewrite (FSMore.lookup_put_other _ _ _ _ _ Hput); [done|..].
    + rewrite Rs, Rd. intros [k Hk]. discriminate.
    + rewrite Rs, Rd. intros [k Hk]. discriminate.
  - intros q H1 H2. by eapply FSMore.lookup_put_other.
Qed.



End ArtifactCopier.

(** *** The binding generator: what it removes and what it ignores *)

Section BindingGeneratorMore.

Variable h : Host.

(** X4.  Unless a regular file has the name of the directory it removes,
    [generate_binding] returns, whatever the exit code of the generator:
    it launches the generator once, in a file system in which nothing
    exists at or below [rpc_example/kotlin/rpc_example], and leaves the
    file system as the generator left it. *)
Theorem generate_binding_runs_generator (lib_extension : string)
  (st : state) :
  FS.is_file (resolve h (kotlin_lib_path h)) (fs st) = false →
  let n0 := FS.delete (resolve h (kotlin_lib_path h)) (fs st) in
  let p := spawn h (generate_binding_command lib_extension) n0 in
  let r := generate_binding h lib_extension st in
  r.1 = Ok ()
  ∧ fs r.2 = p.1
  ∧ launched (new_events st r.2) = [generate_binding_command lib_extension]
  ∧ last (new_events st r.2)
    = Some (Run (generate_binding_command lib_extension) p.2)
  ∧ (∀ q, FS.lookup (resolve h (kotlin_lib_path h) ++ q) n0 = None).
Proof.
  intros Hfile n0 p r.
  assert (∀ q, FS.lookup (resolve h (kotlin_lib_path h) ++ q) n0 = None)
    as Hclean.
  { intros q. apply FSMore.lookup_delete_below.
    by rewrite resolve_kotlin_lib_path. }
  unfold FS.is_file in Hfile. subst r p n0.
  unfold generate_binding, generate_binding_predelete, os_path_exists,
    shutil_rmtree, run_command, subprocess_run, FS.exists_.
  run_monad.
  destruct (FS.lookup (resolve h (kotlin_lib_path h)) (fs st))
    as [[content|m]|] eqn:E; [done| |]; simpl; rewrite ?E; simpl.
  - rewrite <- !app_assoc. simpl. unfold new_events. simpl.
    rewrite drop_app_length. done.
  - rewrite (FSMore.delete_absent _ _ E) in *.
    rewrite <- !app_assoc. simpl. unfold new_events. simpl.
    rewrite drop_app_length. done.
Qed.

(** X5.  When a regular file has that name, [generate_binding] raises the
    [NotADirectoryError] of [shutil.rmtree] after its first line: the
    generator is not launched and the file system is untouched. *)
Theorem generate_binding_blocked_by_file (lib_extension content : string)
  (st : state) :
  FS.lookup (resolve h (kotlin_lib_path h)) (fs st) = Some (File content) →
  generate_binding h lib_extension st
  = (Raise (Exn NotADirectoryError
              (strerror h NotADirectoryError (kotlin_lib_path h))),
     State (fs st)
       (trace st ++ [Enter "generate_binding";
                     Print "[INFO] Generating Kotlin binding..."])).
Proof.
  intros E.
  unfold generate_binding, generate_binding_predelete, os_path_exists,
    shutil_rmtree, os_error, FS.exists_.
  run_monad. rewrite E. simpl. rewrite E. simpl.
  by rewrite <- !app_assoc.
Qed.

End BindingGeneratorMore.

Lemma generate_binding_runs_generator_witness :
  FS.is_file (resolve idle_host (kotlin_lib_path idle_host))
    (fs old_output_state) = false
  ∧ (generate_binding idle_host "so" old_output_state).1 = Ok ()
  ∧ FS.lookup ["rpc_example"; "kotlin"; "rpc_example"; "old.kt"]
      (fs (generate_binding idle_host "so" old_output_state).2) = None.
Proof.
  assert (FS.is_file (resolve idle_host (kotlin_lib_path idle_host))
            (fs old_output_state) = false) as Hf by (vm_compute; reflexivity).
  destruct (generate_binding_runs_generator idle_host "so" old_output_state Hf)
    as (Hok & Hfs & _ & _ & Hclean).
  split; [exact Hf|]. split; [exact Hok|].
  rewrite Hfs. exact (Hclean ["old.kt"]).
Defined.

Lemma generate_binding_blocked_by_file_witness :
  FS.lookup (resolve linux_host (kotlin_lib_path linux_host))
    (fs file_as_lib_path_state) = Some (File "not a directory")
  ∧ (generate_binding linux_host "so" file_as_lib_path_state).1
    = Raise (Exn NotADirectoryError
               "[Errno 20] Not a directory: './rpc_example/kotlin/rpc_example'").
Proof.
  assert (FS.lookup (resolve linux_host (kotlin_lib_path linux_host))
            (fs file_as_lib_path_state) = Some (File "not a directory"))
    as Hf by (vm_compute; reflexivity).
  split; [exact Hf|].
  rewrite (generate_binding_blocked_by_file linux_host "so" _ _ Hf).
  vm_compute. reflexivity.
Defined.

(** *** The dependency fetcher: what it fetches and when it fails *)

Section DependencyFetcherMore.

Variable h : Host.

(** X6.  With the vendor folder in place, [dependencies] returns whatever the
    downloads do.  It launches [curl] for [jna.jar] if that file is
    missing, and then, looking at the file system as it is by then, for
    [kotlinx-coroutines.jar] if that file is missing: one download per
    missing file, in this order, and none for a file that exists. *)
Theorem dependencies_fetches_what_is_missing (st : state) :
  FS.exists_ (resolve h vendor_folder) (fs st) = true →
  let n1 :=
    if FS.exists_ (resolve h jna_file) (fs st) then fs st
    else (spawn h curl_jna (fs st)).1 in
  let n2 :=
    if FS.exists_ (resolve h kotlinx_coroutines_file) n1 then n1
    else (spawn h curl_kotlinx_coroutines n1).1 in
  let r := dependencies h st in
  r.1 = Ok ()
  ∧ fs r.2 = n2
  ∧ launched (new_events st r.2)
    = (if FS.exists_ (resolve h jna_file) (fs st) then [] else [curl_jna])
      ++ (if FS.exists_ (resolve h kotlinx_coroutines_file) n1 then []
          else [curl_kotlinx_coroutines]).
Proof.
  intros Hv n1 n2 r. subst r n2 n1.
  unfold dependencies, os_path_exists, run_command, subprocess_run,
    curl_jna, curl_kotlinx_coroutines.
  run_monad. rewrite Hv. simpl.
  destruct (FS.exists_ (resolve h jna_file) (fs st)); simpl;
    match goal with
    | |- context [FS.exists_ (resolve h kotlinx_coroutines_file) ?n] =>
        destruct (FS.exists_ (resolve h kotlinx_coroutines_file) n)
    end; simpl;
    rewrite <- !app_assoc; unfold new_events; simpl;
    rewrite drop_app_length; done.
Qed.

Lemma lookup_in_empty_dir (c : string) (q : FS.path) :
  FS.lookup (c :: q) (Dir ∅) = None.
Proof. simpl. by rewrite lookup_empty. Qed.

Lemma vendor_folder_created (st : state) (n0 : node) :
  FS.exists_ (resolve h vendor_folder) (fs st) = false →
  FS.mkdirs (resolve h vendor_folder) (fs st) = Some n0 →
  FS.lookup (resolve h vendor_folder) n0 = Some (Dir ∅).
Proof.
  rewrite resolve_vendor_folder. intros Hv Hmk.
  eapply FSMore.mkdirs_new; [|done].
  unfold FS.exists_ in Hv.
  by destruct (FS.lookup (out_dir_path ++ ["vendor"]) (fs st)).
Qed.

Lemma jna_missing_in_new_folder (n0 : node) :
  FS.lookup (resolve h vendor_folder) n0 = Some (Dir ∅) →
  FS.exists_ (resolve h jna_file) n0 = false.
Proof.
  rewrite resolve_vendor_folder, resolve_jna_file. intros Hnew.
  unfold FS.exists_. rewrite FSFacts.lookup_app, Hnew.
  change (Some (Dir ∅) ≫= FS.lookup ["jna.jar"])
    with (FS.lookup ["jna.jar"] (Dir ∅)).
  by rewrite lookup_in_empty_dir.
Qed.

Lemma vendor_folder_free (st : state) :
  (∀ q content, q `prefix_of` resolve h vendor_folder →
                FS.lookup q (fs st) ≠ Some (File content)) →
  ∃ n0, FS.mkdirs (resolve h vendor_folder) (fs st) = Some n0.
Proof.
  rewrite resolve_vendor_folder. intros Hfree.
  destruct (FS.mkdirs (out_dir_path ++ ["vendor"]) (fs st)) as [n0|] eqn:Hmk;
    [by exists n0|].
  apply FSMore.mkdirs_None in Hmk as (q & content & Hq & Hl).
  by destruct (Hfree q content Hq).
Qed.

(** X7.  Without the vendor folder and with no regular file on the way to it,
    [dependencies] first creates the folder, with the directories above
    it, and then fetches into it: [jna.jar] always, and
    [kotlinx-coroutines.jar] unless the first download has left it
    there. *)
Theorem dependencies_creates_vendor_folder (st : state) :
  FS.exists_ (resolve h vendor_folder) (fs st) = false →
  (∀ q content, q `prefix_of` resolve h vendor_folder →
                FS.lookup q (fs st) ≠ Some (File content)) →
  ∃ n0,
    FS.mkdirs (resolve h vendor_folder) (fs st) = Some n0
    ∧ FS.lookup (resolve h vendor_folder) n0 = Some (Dir ∅)
    ∧ let n1 := (spawn h curl_jna n0).1 in
      let r := dependencies h st in
      r.1 = Ok ()
      ∧ take 2 (new_events st r.2)
        = [Enter "dependencies"; Makedirs vendor_folder]
      ∧ launched (new_events st r.2)
        = curl_jna
          :: (if FS.exists_ (resolve h kotlinx_coroutines_file) n1 then []
              else [curl_kotlinx_coroutines]).
Proof.
  intros Hv Hfree.
  destruct (vendor_folder_free st Hfree) as [n0 Hmk].
  pose proof (vendor_folder_created st n0 Hv Hmk) as Hnew.
  pose proof (jna_missing_in_new_folder n0 Hnew) as Hjna.
  exists n0. split; [exact Hmk|]. split; [exact Hnew|]. intros n1 r.
  subst r n1.
  unfold dependencies, os_path_exists, os_makedirs, run_command,
    subprocess_run, curl_jna, curl_kotlinx_coroutines.
  run_monad. rewrite Hv. simpl. rewrite Hv, Hmk. simpl.
  rewrite Hjna. simpl.
  match goal with
  | |- context [FS.exists_ (resolve h kotlinx_coroutines_file) ?n] =>
      destruct (FS.exists_ (resolve h kotlinx_coroutines_file) n)
  end; simpl;
    rewrite <- !app_assoc; unfold new_events; simpl;
    rewrite drop_app_length; done.
Qed.



End DependencyFetcherMore.

Lemma copy_cdylib_copies_witness :
  "so" ∈ lib_extensions
  ∧ FS.lookup (resolve linux_host (cdylib_src "so")) (fs built_library_state)
    = Some (File "cdylib rpc_example")
  ∧ (copy_cdylib linux_host "so" built_library_state).1 = Ok ()
  ∧ FS.lookup ["rpc_example"; "kotlin"; "rpc_example.so"]
      (fs (copy_cdylib linux_host "so" built_library_state).2)
    = Some (File "cdylib rpc_example").
Proof.
  assert ("so" ∈ lib_extensions) as He by (vm_compute; in_list).
  assert (FS.lookup (resolve linux_host (cdylib_src "so"))
            (fs built_library_state) = Some (File "cdylib rpc_example"))
    as Hsrc by (vm_compute; reflexivity).
  assert (FS.is_dir out_dir_path (fs built_library_state) = true) as Hout
    by (vm_compute; reflexivity).
  assert (FS.is_dir (resolve linux_host (cdylib_dest "so"))
            (fs built_library_state) = false) as Hdest
    by (vm_compute; reflexivity).
  destruct (copy_cdylib_copies linux_host "so" _ built_library_state
              He Hsrc Hout Hdest) as (n' & Hc & Hd & _ & _).
  split; [exact He|]. split; [exact Hsrc|]. rewrite Hc.
  split; [reflexivity|]. exact Hd.
Defined.



Lemma dependencies_fetches_what_is_missing_witness :
  FS.exists_ (resolve linux_host vendor_folder) (fs fresh_state) = true
  ∧ (dependencies linux_host fresh_state).1 = Ok ()
  ∧ launched (new_events fresh_state (dependencies linux_host fresh_state).2)
    = [curl_jna; curl_kotlinx_coroutines].
Proof.
  assert (FS.exists_ (resolve linux_host vendor_folder) (fs fresh_state)
          = true) as Hv by (vm_compute; reflexivity).
  destruct (dependencies_fetches_what_is_missing linux_host fresh_state Hv)
    as (Hok & _ & Hl).
  split; [exact Hv|]. split; [exact Hok|].
  rewrite Hl. vm_compute. reflexivity.
Defined.

Lemma dependencies_creates_vendor_folder_witness :
  FS.exists_ (resolve linux_host vendor_folder) (fs bare_state) = false
  ∧ (dependencies linux_host bare_state).1 = Ok ()
  ∧ take 2 (new_events bare_state (dependencies linux_host bare_state).2)
    = [Enter "dependencies"; Makedirs vendor_folder].
Proof.
  assert (FS.exists_ (resolve linux_host vendor_folder) (fs bare_state)
          = false) as Hv by (vm_compute; reflexivity).
  assert (∀ q content, q `prefix_of` resolve linux_host vendor_folder →
            FS.lookup q (fs bare_state) ≠ Some (File content)) as Hfree.
  { intros q content _. destruct q as [|c q]; [discriminate|].
    simpl. rewrite lookup_empty. discriminate. }
  destruct (dependencies_creates_vendor_folder linux_host bare_state Hv Hfree)
    as (n0 & _ & _ & Hok & Hfirst & _).
  split; [exact Hv|]. split; [exact Hok|exact Hfirst].
Defined.


(** *** The package builder: what it touches and when it fails *)

Section PackageBuilderMore.

Variable h : Host.

(** X9.  Whatever the state, [build_jar] launches no process, and the only
    change it makes to the file system is the removal of the archive file:
    every path that is neither below nor above [rpc_example.jar] is as
    before. *)
Theorem build_jar_only_removes_archive (st : state) :
  fs (build_jar h st).2
  = (if FS.is_file (resolve h jar_file) (fs st)
     then FS.delete (resolve h jar_file) (fs st) else fs st)
  ∧ launched (new_events st (build_jar h st).2) = []
  ∧ (∀ q, ¬ resolve h jar_file `prefix_of` q →
          ¬ q `prefix_of` resolve h jar_file →
          FS.lookup q (fs (build_jar h st).2) = FS.lookup q (fs st)).
Proof.
  assert (fs (build_jar h st).2
          = (if FS.is_file (resolve h jar_file) (fs st)
             then FS.delete (resolve h jar_file) (fs st) else fs st)
          ∧ launched (new_events st (build_jar h st).2) = []) as [Hfs Hl].
  { unfold build_jar, os_path_exists, os_remove, run_command, os_error.
    rewrite !resolve_jar_file.
    generalize (out_dir_path ++ ["rpc_example.jar"]). intros p.
    run_monad. unfold FS.exists_, FS.is_file.
    destruct (FS.lookup p (fs st)) as [[content|m]|] eqn:E;
      simpl; rewrite ?E; simpl;
      rewrite <- !app_assoc; unfold new_events; simpl;
      rewrite drop_app_length; done. }
  split; [exact Hfs|]. split; [exact Hl|].
  intros q H1 H2. rewrite Hfs.
  destruct (FS.is_file (resolve h jar_file) (fs st)); [|done].
  by apply FSFacts.lookup_delete_other.
Qed.

(** X10.  When a directory has the name of the archive, [build_jar] fails in
    [os.remove] after its first line, with [IsADirectoryError] on Linux
    and [PermissionError] on macOS and Windows; the directory stays and
    the compiler command is not echoed. *)
Theorem build_jar_blocked_by_directory (st : state)
  (m : gmap string node) :
  FS.lookup (resolve h jar_file) (fs st) = Some (Dir m) →
  build_jar h st
  = (Raise (Exn (directory_as_file h)
              (strerror h (directory_as_file h) jar_file)),
     State (fs st)
       (trace st ++ [Enter "build_jar"; Print "[INFO] Building Kotlin JAR..."])).
Proof.
  unfold build_jar, os_path_exists, os_remove, os_error.
  rewrite !resolve_jar_file.
  generalize (out_dir_path ++ ["rpc_example.jar"]). intros p E.
  run_monad. unfold FS.exists_.
  rewrite E. simpl. rewrite E. simpl. by rewrite <- !app_assoc.
Qed.

End PackageBuilderMore.

Lemma build_jar_blocked_by_directory_witness :
  FS.lookup (resolve linux_host jar_file) (fs directory_as_archive_state)
  = Some (Dir ∅)
  ∧ (build_jar linux_host directory_as_archive_state).1
    = Raise (Exn IsADirectoryError
               "[Errno 21] Is a directory: './rpc_example/kotlin/rpc_example.jar'")
  ∧ (build_jar windows_host directory_as_archive_state).1
    = Raise (Exn PermissionError
               "[Errno 1] Operation not permitted: './rpc_example/kotlin/rpc_example.jar'").
Proof.
  assert (FS.lookup (resolve linux_host jar_file)
            (fs directory_as_archive_state) = Some (Dir ∅)) as Hl
    by (vm_compute; reflexivity).
  assert (FS.lookup (resolve windows_host jar_file)
            (fs directory_as_archive_state) = Some (Dir ∅)) as Hw
    by (vm_compute; reflexivity).
  split; [exact Hl|]. split.
  - rewrite (build_jar_blocked_by_directory linux_host _ _ Hl).
    vm_compute. reflexivity.
  - rewrite (build_jar_blocked_by_directory windows_host _ _ Hw).
    vm_compute. reflexivity.
Defined.

(** *** What every step adds to the trace *)

Section Adds.

Variable P : list event → Prop.
Hypothesis P_nil : P [].
Hypothesis P_app : ∀ a b, P a → P b → P (a ++ b).

Lemma adds_silent {A} (m : M A) :
  (∀ st, trace (m st).2 = trace st) → adds P m.
Proof.
  intros Hm st. exists []. rewrite app_nil_r. split; [apply Hm|apply P_nil].
Qed.

Lemma adds_ret {A} (a : A) : adds P (mret a).
Proof. by apply adds_silent. Qed.

Lemma adds_raise {A} (e : exn) : adds P (@raise A e).
Proof. by apply adds_silent. Qed.

Lemma adds_get_fs : adds P get_fs.
Proof. by apply adds_silent. Qed.

Lemma adds_set_fs (n : node) : adds P (set_fs n).
Proof. by apply adds_silent. Qed.

Lemma adds_emit (e : event) : P [e] → adds P (emit e).
Proof. intros He st. by exists [e]. Qed.

Lemma adds_bind {A B} (m : M A) (f : A → M B) :
  adds P m → (∀ a, adds P (f a)) → adds P (m ≫= f).
Proof.
  intros Hm Hf st. destruct (Hm st) as (evs & Ht & Hevs).
  unfold mbind, M_bind. destruct (m st) as [[a|e] st1]; simpl in *.
  - destruct (Hf a st1) as (evs' & Ht' & Hevs').
    exists (evs ++ evs'). rewrite Ht', Ht, <- app_assoc.
    split; [done|]. by apply P_app.
  - by exists evs.
Qed.

Lemma adds_for_each {A} (l : list A) (body : A → M unit) :
  (∀ x, adds P (body x)) → adds P (for_each l body).
Proof.
  intros Hb. induction l as [|x l IH]; simpl.
  - apply adds_ret.
  - apply adds_bind; [apply Hb|intros _; apply IH].
Qed.

Hypothesis P_plain : ∀ e, plain e → P [e].
Hypothesis P_launch : ∀ c rc, P [Print (echo_line c); Run c rc].

Ltac adds_step :=
  first
    [ apply adds_ret
    | apply adds_raise
    | apply adds_get_fs
    | apply adds_set_fs
    | apply adds_emit; apply P_plain; exact I
    | apply adds_bind; [|intros ?]
    | match goal with
      | |- adds P (if ?b then _ else _) => destruct b
      | |- adds P (match ?x with _ => _ end) => destruct x
      end ].

Variable h : Host.

Lemma adds_run_command (command : list string) (print_only : bool) :
  adds P (run_command h command print_only).
Proof.
  destruct print_only.
  - unfold run_command, print. repeat adds_step.
  - intros st. rewrite run_command_live. simpl.
    eexists. split; [done|]. apply P_launch.
Qed.

Lemma adds_marked {A} (f : string) (k : M A) :
  adds P k → adds (marked f P) (emit (Enter f) ≫= λ _, k).
Proof.
  intros Hk st. unfold mbind, M_bind, emit. simpl.
  destruct (Hk (State (fs st) (trace st ++ [Enter f]))) as (evs & Ht & Hevs).
  exists (Enter f :: evs). rewrite Ht. simpl. rewrite <- app_assoc.
  split; [done|]. by exists evs.
Qed.

Lemma adds_get_lib_extension :
  adds (marked "get_lib_extension" P) (get_lib_extension h).
Proof.
  apply adds_marked. unfold sys_exit. cbv zeta. repeat adds_step.
Qed.

Lemma adds_build_library :
  adds (marked "build_library" P) (build_library h).
Proof.
  apply adds_marked. unfold print, get_returncode, sys_exit.
  apply adds_bind; [repeat adds_step|intros _].
  apply adds_bind; [apply adds_run_command|intros r].
  repeat adds_step.
Qed.

Lemma adds_generate_binding (lib_extension : string) :
  adds (marked "generate_binding" P) (generate_binding h lib_extension).
Proof.
  apply adds_marked.
  unfold generate_binding_predelete, print, os_path_exists, shutil_rmtree,
    os_error.
  apply adds_bind; [repeat adds_step|intros _].
  apply adds_bind; [apply adds_run_command|intros r].
  apply adds_ret.
Qed.

Lemma adds_copy_cdylib (lib_extension : string) :
  adds (marked "copy_cdylib" P) (copy_cdylib h lib_extension).
Proof.
  apply adds_marked. unfold print, shutil_copy, os_error. cbv zeta.
  repeat adds_step.
Qed.

Lemma adds_dependencies : adds (marked "dependencies" P) (dependencies h).
Proof.
  apply adds_marked. unfold print, os_path_exists, os_makedirs, os_error.
  apply adds_bind; [repeat adds_step|intros b].
  apply adds_bind; [repeat adds_step|intros _].
  apply adds_bind; [repeat adds_step|intros b1].
  apply adds_bind.
  { destruct b1; [repeat adds_step|].
    apply adds_bind; [apply adds_run_command|intros r; apply adds_ret]. }
  intros _.
  apply adds_bind; [repeat adds_step|intros b2].
  destruct b2; [repeat adds_step|].
  apply adds_bind; [apply adds_run_command|intros r; apply adds_ret].
Qed.

Lemma adds_build_jar : adds (marked "build_jar" P) (build_jar h).
Proof.
  apply adds_marked. unfold print, os_path_exists, os_remove, os_error.
  do 3 (apply adds_bind; [repeat adds_step|intros ?]).
  apply adds_bind; [apply adds_run_command|intros r].
  apply adds_ret.
Qed.

Lemma adds_run_tests : adds (marked "run_tests" P) (run_tests h).
Proof.
  apply adds_marked. unfold print.
  apply adds_bind; [repeat adds_step|intros _].
  apply adds_for_each. intros test_name.
  apply adds_bind; [repeat adds_step|intros _].
  apply adds_bind; [apply adds_run_command|intros r].
  apply adds_ret.
Qed.

End Adds.

Lemma adds_weaken {A} (P Q : list event → Prop) (m : M A) :
  (∀ evs, P evs → Q evs) → adds P m → adds Q m.
Proof.
  intros HPQ Hm st. destruct (Hm st) as (evs & Ht & Hevs).
  exists evs. split; [done|]. by apply HPQ.
Qed.

Lemma adds_new_events {A} (P : list event → Prop) (m : M A) (st : state) :
  adds P m → P (new_events st (m st).2).
Proof.
  intros Hm. destruct (Hm st) as (evs & Ht & Hevs).
  unfold new_events. by rewrite Ht, drop_app_length.
Qed.

(** *** Every launch is echoed first *)

Section Echoed.

Lemma echoed_nil : echoed [].
Proof. intros i c rc Hi. by rewrite lookup_nil in Hi. Qed.

Lemma echoed_app (a b : list event) : echoed a → echoed b → echoed (a ++ b).
Proof.
  intros Ha Hb i c rc Hi. apply lookup_app_Some in Hi as [Hi|[Hlen Hi]].
  - destruct (Ha i c rc Hi) as (j & -> & Hj). exists j. split; [done|].
    by apply lookup_app_l_Some.
  - destruct (Hb _ c rc Hi) as (j & Hij & Hj).
    exists (length a + j)%nat. split; [lia|].
    rewrite lookup_app_r by lia.
    by replace (length a + j - length a)%nat with j by lia.
Qed.

Lemma echoed_plain (e : event) : plain e → echoed [e].
Proof.
  intros He i c rc Hi. destruct i as [|i]; simpl in Hi.
  - injection Hi as ->. done.
  - by rewrite lookup_nil in Hi.
Qed.

Lemma echoed_enter (f : string) : echoed [Enter f].
Proof.
  intros i c rc Hi. destruct i as [|i]; simpl in Hi; [done|].
  by rewrite lookup_nil in Hi.
Qed.

Lemma echoed_launch (c : list string) (rc : Z) :
  echoed [Print (echo_line c); Run c rc].
Proof.
  intros i c' rc' Hi. destruct i as [|[|i]]; simpl in Hi; [done| |].
  - injection Hi as -> ->. by exists 0%nat.
  - by rewrite lookup_nil in Hi.
Qed.

Lemma echoed_marked (f : string) (evs : list event) :
  marked f echoed evs → echoed evs.
Proof.
  intros (evs' & -> & He).
  apply (echoed_app [Enter f] evs'); [apply echoed_enter|done].
Qed.

Variable h : Host.

Ltac echoed_step lem :=
  eapply adds_weaken; [apply echoed_marked|];
  apply lem;
  first [apply echoed_nil|apply echoed_app|apply echoed_plain
        |apply echoed_launch].

Lemma main_adds_echoed : adds echoed (main h).
Proof.
  unfold main.
  apply adds_bind; [apply echoed_app| |intros ext].
  { echoed_step adds_get_lib_extension. }
  apply adds_bind; [apply echoed_app| |intros _].
  { echoed_step adds_build_library. }
  apply adds_bind; [apply echoed_app| |intros _].
  { echoed_step adds_generate_binding. }
  apply adds_bind; [apply echoed_app| |intros _].
  { echoed_step adds_copy_cdylib. }
  apply adds_bind; [apply echoed_app| |intros _].
  { echoed_step adds_dependencies. }
  apply adds_bind; [apply echoed_app| |intros _].
  { echoed_step adds_build_jar. }
  echoed_step adds_run_tests.
Qed.

(** X11.  Whatever the host and the state, every process [main] launches has
    the echo line of its command, "[COMMAND] " and the arguments joined by
    spaces, directly before it in the trace. *)
Theorem every_launch_is_echoed (st : state) (i : nat) (c : list string)
  (rc : Z) :
  new_events st (main h st).2 !! i = Some (Run c rc) →
  ∃ j, i = S j
       ∧ new_events st (main h st).2 !! j = Some (Print (echo_line c)).
Proof.
  intros Hi.
  exact (adds_new_events echoed (main h) st main_adds_echoed i c rc Hi).
Qed.

End Echoed.

Lemma every_launch_is_echoed_witness :
  new_events fresh_state (main windows_host fresh_state).2 !! 4%nat
  = Some (Run build_library_command 0)
  ∧ new_events fresh_state (main windows_host fresh_state).2 !! 3%nat
    = Some (Print "[COMMAND] cargo build -p rpc_example --release").
Proof.
  assert (new_events fresh_state (main windows_host fresh_state).2 !! 4%nat
          = Some (Run build_library_command 0)) as Hi
    by (vm_compute; reflexivity).
  destruct (every_launch_is_echoed windows_host fresh_state _ _ _ Hi)
    as (j & Hj & He).
  injection Hj as <-. split; [exact Hi|]. rewrite He.
  vm_compute. reflexivity.
Defined.

(** *** The order of the steps *)

Section StepOrder.

Lemma unmarked_nil : unmarked [].
Proof. done. Qed.

Lemma entered_app (a b : list event) :
  entered (a ++ b) = entered a ++ entered b.
Proof. unfold entered. apply omap_app. Qed.

Lemma unmarked_app (a b : list event) :
  unmarked a → unmarked b → unmarked (a ++ b).
Proof. unfold unmarked. rewrite entered_app. by intros -> ->. Qed.

Lemma unmarked_plain (e : event) : plain e → unmarked [e].
Proof. by destruct e. Qed.

Lemma unmarked_launch (c : list string) (rc : Z) :
  unmarked [Print (echo_line c); Run c rc].
Proof. done. Qed.

Lemma entered_marked (f : string) (evs : list event) :
  unmarked evs → entered (Enter f :: evs) = [f].
Proof.
  intros Hu. change (Enter f :: evs) with ([Enter f] ++ evs).
  rewrite entered_app. unfold unmarked in Hu. by rewrite Hu.
Qed.

Lemma in_order_last {A} (f : string) (m : M A) :
  adds (marked f unmarked) m → in_order [f] m.
Proof.
  intros Hm st. destruct (Hm st) as (evs & Ht & evs' & -> & Hu).
  exists (Enter f :: evs'). split; [done|].
  by rewrite (entered_marked f evs' Hu).
Qed.

Lemma in_order_seq {A B} (f : string) (l : list string) (m : M A)
  (k : A → M B) :
  adds (marked f unmarked) m → (∀ a, in_order l (k a)) →
  in_order (f :: l) (m ≫= k).
Proof.
  intros Hm Hk st. destruct (Hm st) as (evs & Ht & evs' & -> & Hu).
  pose proof (entered_marked f evs' Hu) as Hf.
  unfold mbind, M_bind. destruct (m st) as [[a|e] st1]; simpl in Ht |- *.
  - destruct (Hk a st1) as (evs2 & Ht2 & Hpre & Hall).
    exists ((Enter f :: evs') ++ evs2). rewrite Ht2, Ht, <- app_assoc.
    split; [done|]. rewrite entered_app, Hf. simpl. split.
    + by apply prefix_cons.
    + intros b Hb. by rewrite (Hall b Hb).
  - exists (Enter f :: evs'). split; [done|]. rewrite Hf. split.
    + apply prefix_cons, prefix_nil.
    + intros b Hb. discriminate.
Qed.

Variable h : Host.

Ltac unmarked_step lem :=
  apply lem;
  first [apply unmarked_nil|apply unmarked_app|apply unmarked_plain
        |apply unmarked_launch].

Lemma main_in_order : in_order pipeline_steps (main h).
Proof.
  unfold main, pipeline_steps.
  apply in_order_seq; [unmarked_step adds_get_lib_extension|intros ext].
  apply in_order_seq; [unmarked_step adds_build_library|intros _].
  apply in_order_seq; [unmarked_step adds_generate_binding|intros _].
  apply in_order_seq; [unmarked_step adds_copy_cdylib|intros _].
  apply in_order_seq; [unmarked_step adds_dependencies|intros _].
  apply in_order_seq; [unmarked_step adds_build_jar|intros _].
  apply in_order_last. unmarked_step adds_run_tests.
Qed.

(** X12.  Whatever the host and the state, the steps [main] enters are the
    first steps of the fixed sequence, each once and in order: no step is
    skipped, repeated or run out of turn, and when [main] returns all
    seven have been entered. *)
Theorem steps_run_in_order (st : state) :
  entered (new_events st (main h st).2) `prefix_of` pipeline_steps
  ∧ (∀ u, (main h st).1 = Ok u →
          entered (new_events st (main h st).2) = pipeline_steps).
Proof.
  destruct (main_in_order st) as (evs & Ht & Hpre & Hall).
  unfold new_events. rewrite Ht, drop_app_length. by split.
Qed.

End StepOrder.

Lemma steps_run_in_order_witness :
  entered (new_events fresh_state (main windows_host fresh_state).2)
  = pipeline_steps
  ∧ entered (new_events fresh_state (main freebsd_host fresh_state).2)
    `prefix_of` pipeline_steps.
Proof.
  split.
  - apply (proj2 (steps_run_in_order windows_host fresh_state) ()).
    vm_compute. reflexivity.
  - apply (proj1 (steps_run_in_order freebsd_host fresh_state)).
Defined.

(** *** What the script can end with *)

Section Failures.

Variable h : Host.

Lemma raises_only_ret {A} (P : exn → Prop) (a : A) : raises_only P (mret a).
Proof. intros st e st' H. discriminate. Qed.

Lemma raises_only_raise {A} (P : exn → Prop) (e : exn) :
  P e → raises_only P (@raise A e).
Proof. intros He st e' st' [= <- _]. exact He. Qed.

Lemma raises_only_emit (P : exn → Prop) (ev : event) :
  raises_only P (emit ev).
Proof. intros st e st' H. discriminate. Qed.

Lemma raises_only_get_fs (P : exn → Prop) : raises_only P get_fs.
Proof. intros st e st' H. discriminate. Qed.

Lemma raises_only_set_fs (P : exn → Prop) (n : node) :
  raises_only P (set_fs n).
Proof. intros st e st' H. discriminate. Qed.

Lemma raises_only_bind {A B} (P : exn → Prop) (m : M A) (f : A → M B) :
  raises_only P m → (∀ a, raises_only P (f a)) → raises_only P (m ≫= f).
Proof.
  intros Hm Hf st e st'. unfold mbind, M_bind.
  destruct (m st) as [[a|e0] st1] eqn:E.
  - apply Hf.
  - intros [= <- <-]. by eapply Hm.
Qed.

Lemma raises_only_for_each {A} (P : exn → Prop) (l : list A)
  (body : A → M unit) :
  (∀ x, raises_only P (body x)) → raises_only P (for_each l body).
Proof.
  intros Hb. induction l as [|x l IH]; simpl.
  - apply raises_only_ret.
  - apply raises_only_bind; [apply Hb|intros _; apply IH].
Qed.

Lemma expected_os_error {A} (c : exc_class) (p : string) :
  c ∈ os_error_classes →
  raises_only (expected_failure h) (@os_error h A c p).
Proof.
  intros Hc. apply raises_only_raise. right. right. by exists c, p.
Qed.

Lemma directory_as_file_class : directory_as_file h ∈ os_error_classes.
Proof. unfold directory_as_file. case_bool_decide; in_list. Qed.

Ltac expected_step :=
  first
    [ apply raises_only_ret
    | apply raises_only_emit
    | apply raises_only_get_fs
    | apply raises_only_set_fs
    | apply expected_os_error;
      first [apply directory_as_file_class | by in_list
            | by destruct (nt h); in_list]
    | apply raises_only_bind; [|intros ?]
    | match goal with
      | |- raises_only _ (if ?b then _ else _) => destruct b
      | |- raises_only _ (match ?x with _ => _ end) => destruct x
      end ].

Lemma expected_run_command (command : list string) (print_only : bool) :
  raises_only (expected_failure h) (run_command h command print_only).
Proof. unfold run_command, subprocess_run, print. repeat expected_step. Qed.

Lemma expected_get_lib_extension :
  raises_only (expected_failure h) (get_lib_extension h).
Proof.
  unfold get_lib_extension, sys_exit. cbv zeta.
  apply raises_only_bind; [apply raises_only_emit|intros _].
  repeat case_bool_decide; try apply raises_only_ret.
  apply raises_only_raise. by left.
Qed.

(** [build_library] runs the command for real, so the status object is
    there when its [returncode] is read. *)
Lemma expected_build_library :
  raises_only (expected_failure h) (build_library h).
Proof.
  intros st e st'. rewrite build_library_cases.
  case_bool_decide; [|discriminate].
  intros [= <- _]. right. by left.
Qed.

Lemma expected_generate_binding (lib_extension : string) :
  raises_only (expected_failure h) (generate_binding h lib_extension).
Proof.
  unfold generate_binding, generate_binding_predelete, print,
    os_path_exists, shutil_rmtree.
  do 2 (apply raises_only_bind; [repeat expected_step|intros ?]).
  apply raises_only_bind; [apply expected_run_command|intros r].
  apply raises_only_ret.
Qed.

Lemma expected_copy_cdylib (lib_extension : string) :
  raises_only (expected_failure h) (copy_cdylib h lib_extension).
Proof.
  unfold copy_cdylib, print, shutil_copy. cbv zeta. repeat expected_step.
Qed.

Lemma expected_dependencies :
  raises_only (expected_failure h) (dependencies h).
Proof.
  unfold dependencies, print, os_path_exists, os_makedirs.
  do 4 (apply raises_only_bind; [repeat expected_step|intros ?]).
  apply raises_only_bind.
  { match goal with |- raises_only _ (if ?b then _ else _) => destruct b end;
      [repeat expected_step|].
    apply raises_only_bind; [apply expected_run_command|intros r].
    apply raises_only_ret. }
  intros _.
  apply raises_only_bind; [repeat expected_step|intros b2].
  destruct b2; [repeat expected_step|].
  apply raises_only_bind; [apply expected_run_command|intros r].
  apply raises_only_ret.
Qed.

Lemma expected_build_jar : raises_only (expected_failure h) (build_jar h).
Proof.
  unfold build_jar, print, os_path_exists, os_remove.
  do 4 (apply raises_only_bind; [repeat expected_step|intros ?]).
  apply raises_only_bind; [apply expected_run_command|intros r].
  apply raises_only_ret.
Qed.

Lemma expected_run_tests : raises_only (expected_failure h) (run_tests h).
Proof.
  intros st e st'. rewrite run_tests_total. discriminate.
Qed.

Lemma main_raises_only_expected :
  raises_only (expected_failure h) (main h).
Proof.
  unfold main.
  apply raises_only_bind; [apply expected_get_lib_extension|intros ext].
  apply raises_only_bind; [apply expected_build_library|intros _].
  apply raises_only_bind; [apply expected_generate_binding|intros _].
  apply raises_only_bind; [apply expected_copy_cdylib|intros _].
  apply raises_only_bind; [apply expected_dependencies|intros _].
  apply raises_only_bind; [apply expected_build_jar|intros _].
  apply expected_run_tests.
Qed.

Lemma os_error_class_is_Exception (c : exc_class) :
  c ∈ os_error_classes →
  is_Exception c = true ∧ c ≠ CalledProcessError.
Proof.
  intros Hc. unfold os_error_classes in Hc.
  repeat (apply elem_of_cons in Hc as [->|Hc]; [done|]).
  by apply elem_of_nil in Hc.
Qed.

(** X13.  Whatever the host and the file system, the script ends in one of four
    ways: with status 0 and nothing on standard error when [main] returns;
    or with status 1 and, on standard error, the message for an unknown
    operating system, the message for a failed library build, or
    "[ERROR] An error occurred: " followed by the text of an [OSError].
    It never ends with a traceback, and the handler for
    [CalledProcessError] never fires: [subprocess.run] is called without
    [check]. *)
Theorem script_ends_in_one_of_four_ways (n : node) :
  let r := (run_script h n).1 in
  (r = {| exit_status := 0; stderr := None |}
   ∧ (main h (State n [])).1 = Ok ())
  ∨ r = {| exit_status := 1; stderr := Some unknown_os_message |}
  ∨ r = {| exit_status := 1; stderr := Some build_failure_message |}
  ∨ ∃ c p,
      c ∈ os_error_classes
      ∧ r = {| exit_status := 1;
               stderr := Some ("[ERROR] An error occurred: "
                               +:+ strerror h c p) |}.
Proof.
  intros r. subst r. unfold run_script. rewrite dunder_main_cases.
  destruct (main h (State n [])) as [[[]|e] st'] eqn:Hmain.
  - left. split; [reflexivity|done].
  - right.
    destruct (main_raises_only_expected _ _ _ Hmain)
      as [->|[->|(c & p & Hc & ->)]].
    + left. reflexivity.
    + right. left. reflexivity.
    + right. right. exists c, p. split; [done|].
      destruct (os_error_class_is_Exception c Hc) as [Hex Hne].
      simpl. rewrite Hex. unfold error_prefix.
      by rewrite bool_decide_eq_false_2.
Qed.

End Failures.

(** *** Exit codes the script does not look at *)

Section ExitCodes.

Lemma printed_app (a b : list event) :
  printed (a ++ b) = printed a ++ printed b.
Proof. unfold printed. apply omap_app. Qed.

Lemma same_world_emit (e : event) (st1 st2 : state) :
  same_world st1 st2 →
  same_world (State (fs st1) (trace st1 ++ [e]))
    (State (fs st2) (trace st2 ++ [e])).
Proof.
  intros [Hfs Hp]. split; [done|]. simpl. rewrite !printed_app. by rewrite Hp.
Qed.

Lemma agree_ret {A} (a : A) : agree (mret a) (mret a).
Proof. intros st1 st2 H. by split. Qed.

Lemma agree_raise {A} (e : exn) : agree (@raise A e) (@raise A e).
Proof. intros st1 st2 H. by split. Qed.

Lemma agree_emit (e : event) : agree (emit e) (emit e).
Proof. intros st1 st2 H. split; [done|]. by apply same_world_emit. Qed.

Lemma agree_get_fs : agree get_fs get_fs.
Proof. intros st1 st2 [Hfs Hp]. split; [simpl; by rewrite Hfs|by split]. Qed.

Lemma agree_set_fs (n : node) : agree (set_fs n) (set_fs n).
Proof. intros st1 st2 [Hfs Hp]. by repeat split. Qed.

Lemma agree_bind {A B} (m1 m2 : M A) (f1 f2 : A → M B) :
  agree m1 m2 → (∀ a, agree (f1 a) (f2 a)) →
  agree (m1 ≫= f1) (m2 ≫= f2).
Proof.
  intros Hm Hf st1 st2 Hw. destruct (Hm st1 st2 Hw) as [Hr Hw'].
  unfold mbind, M_bind.
  destruct (m1 st1) as [[a1|e1] s1], (m2 st2) as [[a2|e2] s2];
    simpl in *; try discriminate.
  - injection Hr as ->. by apply Hf.
  - injection Hr as ->. by split.
Qed.

Lemma agree_then {A C} (m1 m2 : M A) (k1 k2 : M C) :
  agree_but_value m1 m2 → agree k1 k2 →
  agree (m1 ≫= λ _, k1) (m2 ≫= λ _, k2).
Proof.
  intros Hm Hk st1 st2 Hw. destruct (Hm st1 st2 Hw) as [Hw' Hr].
  unfold mbind, M_bind.
  destruct (m1 st1) as [[a1|e1] s1], (m2 st2) as [[a2|e2] s2];
    simpl in *; try done.
  - by apply Hk.
  - by subst e2.
Qed.

Lemma agree_for_each {A} (l : list A) (body1 body2 : A → M unit) :
  (∀ x, agree (body1 x) (body2 x)) →
  agree (for_each l body1) (for_each l body2).
Proof.
  intros Hb. induction l as [|x l IH]; simpl.
  - apply agree_ret.
  - apply agree_bind; [apply Hb|intros _; apply IH].
Qed.

Variable h : Host.
Variable rc : list string → node → Z.

Lemma agree_run_command (command : list string) (print_only : bool) :
  agree_but_value (run_command h command print_only)
    (run_command (with_exit_codes h rc) command print_only).
Proof.
  intros st1 st2 [Hfs Hp]. destruct print_only.
  - rewrite !run_command_dry. simpl. split; [|done].
    split; [done|]. simpl. rewrite !printed_app. by rewrite Hp.
  - rewrite !run_command_live. simpl. split; [|done].
    split; [by rewrite Hfs|]. simpl. rewrite !printed_app. by rewrite Hp.
Qed.

Ltac expose :=
  unfold os_path_exists, shutil_rmtree, os_remove, os_makedirs, shutil_copy,
    os_error, directory_as_file, kotlin_lib_path, os_path_join, resolve, nt,
    print, sys_exit, with_exit_codes;
  cbn [platform_system environ strerror].

Ltac agree_step :=
  first
    [ apply agree_ret
    | apply agree_raise
    | apply agree_emit
    | apply agree_get_fs
    | apply agree_set_fs
    | apply agree_then; [apply agree_run_command|]
    | apply agree_bind; [|intros ?]
    | match goal with
      | |- agree (if ?b then _ else _) (if ?b then _ else _) => destruct b
      | |- agree (match ?x with _ => _ end) (match ?x with _ => _ end) =>
          destruct x
      end ].

Lemma agree_get_lib_extension :
  agree (get_lib_extension h) (get_lib_extension (with_exit_codes h rc)).
Proof. unfold get_lib_extension. expose. cbv zeta. repeat agree_step. Qed.

Lemma agree_build_library :
  (∀ n, (spawn h build_library_command n).2 = 0
        ↔ rc build_library_command n = 0) →
  agree (build_library h) (build_library (with_exit_codes h rc)).
Proof.
  intros Hrc st1 st2 [Hfs Hp]. rewrite !build_library_cases.
  cbn [spawn with_exit_codes fst snd]. rewrite <- Hfs.
  assert (bool_decide ((spawn h build_library_command (fs st1)).2 ≠ 0)
          = bool_decide (rc build_library_command (fs st1) ≠ 0)) as ->.
  { apply bool_decide_ext. by rewrite Hrc. }
  split; [done|]. split; [done|].
  cbn [trace]. rewrite !printed_app. by rewrite Hp.
Qed.

Lemma agree_generate_binding (lib_extension : string) :
  agree (generate_binding h lib_extension)
    (generate_binding (with_exit_codes h rc) lib_extension).
Proof.
  unfold generate_binding, generate_binding_predelete. expose.
  repeat agree_step.
Qed.

Lemma agree_copy_cdylib (lib_extension : string) :
  agree (copy_cdylib h lib_extension)
    (copy_cdylib (with_exit_codes h rc) lib_extension).
Proof. unfold copy_cdylib. expose. cbv zeta. repeat agree_step. Qed.

Lemma agree_dependencies :
  agree (dependencies h) (dependencies (with_exit_codes h rc)).
Proof. unfold dependencies. expose. repeat agree_step. Qed.

Lemma agree_build_jar :
  agree (build_jar h) (build_jar (with_exit_codes h rc)).
Proof. unfold build_jar. expose. repeat agree_step. Qed.

Lemma agree_run_tests :
  agree (run_tests h) (run_tests (with_exit_codes h rc)).
Proof.
  unfold run_tests. expose.
  do 2 (apply agree_bind; [repeat agree_step|intros _]).
  apply agree_for_each. intros test_name. repeat agree_step.
Qed.

(** X14.  Apart from the library build, whose exit code decides between going
    on and stopping, the exit codes of the processes have no influence on
    a run: with the exit codes replaced by any others that agree on
    whether the build succeeded, [main] has the same result, prints the
    same lines and leaves the same file system. *)
Theorem exit_codes_are_ignored (st : state) :
  (∀ n, (spawn h build_library_command n).2 = 0
        ↔ rc build_library_command n = 0) →
  (main h st).1 = (main (with_exit_codes h rc) st).1
  ∧ fs (main h st).2 = fs (main (with_exit_codes h rc) st).2
  ∧ printed (trace (main h st).2)
    = printed (trace (main (with_exit_codes h rc) st).2).
Proof.
  intros Hrc.
  assert (agree (main h) (main (with_exit_codes h rc))) as Hmain.
  { unfold main.
    apply agree_bind; [apply agree_get_lib_extension|intros ext].
    apply agree_bind; [by apply agree_build_library|intros _].
    apply agree_bind; [apply agree_generate_binding|intros _].
    apply agree_bind; [apply agree_copy_cdylib|intros _].
    apply agree_bind; [apply agree_dependencies|intros _].
    apply agree_bind; [apply agree_build_jar|intros _].
    apply agree_run_tests. }
  destruct (Hmain st st) as (Hr & Hfs & Hp); [by split|]. done.
Qed.

End ExitCodes.

Lemma exit_codes_are_ignored_witness :
  (∀ n, (spawn windows_host build_library_command n).2 = 0
        ↔ failing_exit_codes build_library_command n = 0)
  ∧ (main (with_exit_codes windows_host failing_exit_codes) fresh_state).1
    = Ok ()
  ∧ launched
      (trace (main (with_exit_codes windows_host failing_exit_codes)
                fresh_state).2)
    = full_run_processes "dll".
Proof.
  assert (∀ n, (spawn windows_host build_library_command n).2 = 0
               ↔ failing_exit_codes build_library_command n = 0) as Hrc.
  { intros n. unfold failing_exit_codes.
    rewrite bool_decide_eq_true_2 by done. reflexivity. }
  destruct (exit_codes_are_ignored windows_host failing_exit_codes
              fresh_state Hrc) as (Hr & _ & _).
  split; [exact Hrc|]. split.
  - rewrite <- Hr. vm_compute. reflexivity.
  - vm_compute. reflexivity.
Defined.

(** *** The echo line of a command *)

Section EchoLine.

Lemma append_cons (a : ascii) (s t : string) :
  String a s +:+ t = String a (s +:+ t).
Proof. reflexivity. Qed.

Lemma append_empty_r (s : string) : s +:+ EmptyString = s.
Proof.
  induction s as [|a s IH]; [done|]. by rewrite append_cons, IH.
Qed.

Lemma append_assoc (s t u : string) : (s +:+ t) +:+ u = s +:+ (t +:+ u).
Proof.
  induction s as [|a s IH]; [done|]. by rewrite !append_cons, IH.
Qed.

Lemma split_on_no_space (cur s : string) :
  has_space s = false →
  PyStr.split_on is_space cur s = [cur +:+ s].
Proof.
  revert cur. induction s as [|a s IH]; intros cur Hs.
  - simpl. by rewrite append_empty_r.
  - simpl in Hs. apply orb_false_elim in Hs as [Ha Hs].
    cbn [PyStr.split_on]. unfold is_space at 1. rewrite Ha.
    rewrite (IH _ Hs). by rewrite append_assoc.
Qed.

Lemma split_on_first (cur s rest : string) :
  has_space s = false →
  PyStr.split_on is_space cur (s +:+ String " " rest)
  = (cur +:+ s) :: PyStr.split_on is_space EmptyString rest.
Proof.
  revert cur. induction s as [|a s IH]; intros cur Hs.
  - change (EmptyString +:+ String " " rest) with (String " " rest).
    cbn [PyStr.split_on]. unfold is_space at 1.
    rewrite bool_decide_eq_true_2 by done. by rewrite append_empty_r.
  - simpl in Hs. apply orb_false_elim in Hs as [Ha Hs].
    rewrite append_cons. cbn [PyStr.split_on]. unfold is_space at 1.
    rewrite Ha. rewrite (IH _ Hs). by rewrite append_assoc.
Qed.

Lemma join_cons2 (x y : string) (l : list string) :
  PyStr.join " " (x :: y :: l) = x +:+ String " " (PyStr.join " " (y :: l)).
Proof. reflexivity. Qed.

Lemma split_join (command : list string) :
  command ≠ [] →
  Forall (λ a, has_space a = false) command →
  PyStr.split_on is_space EmptyString (PyStr.join " " command) = command.
Proof.
  intros Hne Hall. induction Hall as [|x l Hx Hl IH]; [done|].
  destruct l as [|y l].
  - change (PyStr.join " " [x]) with x. by rewrite split_on_no_space.
  - rewrite join_cons2, split_on_first by done.
    change (EmptyString +:+ x) with x. f_equal. by apply IH.
Qed.

Variable h : Host.

(** X15.  When no argument contains a space, the one line [run_command] prints
    is "[COMMAND] " followed by a text that splits at the spaces into the
    arguments of the command, as they were passed. *)
Theorem echo_line_splits_back (command : list string) (print_only : bool)
  (st : state) :
  command ≠ [] →
  Forall (λ a, has_space a = false) command →
  ∃ body,
    printed (new_events st (run_command h command print_only st).2)
    = ["[COMMAND] " +:+ body]
    ∧ PyStr.split_on is_space EmptyString body = command.
Proof.
  intros Hne Hall. exists (PyStr.join " " command).
  split; [|by apply split_join].
  destruct print_only.
  - rewrite run_command_dry. cbn [snd]. by rewrite new_events_app.
  - rewrite run_command_live. cbn [snd]. by rewrite new_events_app.
Qed.

(** X16.  The echo line does not quote: a command with a space inside an
    argument prints the line of the command with that argument split in
    two. *)
Theorem echo_line_does_not_quote (a b : string) (rest : list string)
  (print_only : bool) (st : state) :
  printed (new_events st
             (run_command h ((a +:+ " " +:+ b) :: rest) print_only st).2)
  = printed (new_events st (run_command h (a :: b :: rest) print_only st).2).
Proof.
  assert (PyStr.join " " ((a +:+ " " +:+ b) :: rest)
          = PyStr.join " " (a :: b :: rest)) as Hj.
  { rewrite join_cons2. destruct rest as [|c rest].
    - change (PyStr.join " " [a +:+ " " +:+ b]) with (a +:+ " " +:+ b).
      done.
    - rewrite !join_cons2. by rewrite append_assoc. }
  destruct print_only.
  - rewrite !run_command_dry. cbn [snd]. rewrite !new_events_app.
    by rewrite Hj.
  - rewrite !run_command_live. cbn [snd]. rewrite !new_events_app.
    unfold printed. cbn [omap list_omap]. by rewrite Hj.
Qed.

End EchoLine.

Lemma echo_line_splits_back_witness :
  build_library_command ≠ []
  ∧ Forall (λ a, has_space a = false) build_library_command
  ∧ ∃ body,
      printed (new_events fresh_state
                 (run_command windows_host build_library_command true
                    fresh_state).2)
      = ["[COMMAND] " +:+ body]
      ∧ PyStr.split_on is_space EmptyString body = build_library_command.
Proof.
  assert (build_library_command ≠ []) as Hne by discriminate.
  assert (Forall (λ a, has_space a = false) build_library_command) as Hall
    by (repeat constructor).
  split; [exact Hne|]. split; [exact Hall|].
  exact (echo_line_splits_back windows_host build_library_command true
           fresh_state Hne Hall).
Defined.

(** *** A second full run *)



Lemma build_jar_only_removes_archive_witness :
  FS.lookup ["rpc_example"; "tests"; "blocking_test.kts"]
    (fs (build_jar windows_host fresh_state).2)
  = FS.lookup ["rpc_example"; "tests"; "blocking_test.kts"] (fs fresh_state)
  ∧ launched (new_events fresh_state (build_jar windows_host fresh_state).2)
    = [].
Proof.
  destruct (build_jar_only_removes_archive windows_host fresh_state)
    as (_ & Hl & Hframe).
  split; [|exact Hl].
  apply Hframe.
  - rewrite resolve_jar_file. intros [k Hk]. discriminate.
  - rewrite resolve_jar_file. intros [k Hk]. discriminate.
Defined.
